(** * Password-reset token lifecycle: issuance and redemption handlers

    A shallow embedding of the two HTTP handlers [requestpasswordreset] and
    [resetpassword] of the recovery hub, with the two Azure tables they use
    ([prospects], [resetrequests]), the e-mail sender, the clock, the random
    source and the salted hash as explicit effects.

    Conventions of the embedding:
    - JavaScript strings are Rocq [string]s restricted to ASCII: [trim] and
      the regular-expression class [\s] strip the six ASCII white-space
      characters, [toLowerCase] folds [A-Z] only.
    - A field of the JSON payload is [option string]: [None] stands for an
      absent, [null] or [undefined] field (the interface types all fields as
      strings).
    - A [Date] is its number of milliseconds since the epoch, a [Z]; the ISO
      strings stored in the table carry exactly that number.
    - [Math.random()] is [k / 2^53] for an integer [0 <= k < 2^53]; the
      product and the sum computed from it are rounded as binary64 rounds
      them, to the nearest double, ties to the even significand.
    - The [TableClient] of @azure/data-tables has [getEntity],
      [upsertEntity], [updateEntity], [deleteEntity] and [submitTransaction];
      it has no method [queryEntities] (rows are listed by [listEntities]),
      so that call throws where it stands, on every run.
    - A remote call that fails has no effect on the store.
    - A table is a finite map from (partitionKey, rowKey) to its row.
    - Two invocations running at once interleave at their awaited calls,
      each call being atomic. *)

From Stdlib Require Import ZArith Lia List Bool Ascii String.
From stdpp Require Import gmap strings list fin_maps.

Open Scope string_scope.
Open Scope Z_scope.

(** ** Strings *)

Module JsString.

Definition chars (s : string) : list ascii := list_ascii_of_string s.
Definition of_chars (l : list ascii) : string := string_of_list_ascii l.

Definition code (c : ascii) : N := N_of_ascii c.

Definition in_range (lo hi : N) (c : ascii) : bool :=
  ((lo <=? code c) && (code c <=? hi))%N.

(** [\s] and the characters [trim] removes: TAB, LF, VT, FF, CR, space. *)
Definition is_space (c : ascii) : bool :=
  in_range 9 13 c || (code c =? 32)%N.

(** [\d], [[a-z]], [[A-Z]]. *)
Definition is_digit (c : ascii) : bool := in_range 48 57 c.
Definition is_lower (c : ascii) : bool := in_range 97 122 c.
Definition is_upper (c : ascii) : bool := in_range 65 90 c.

(** The characters the regular-expression dot does not match. *)
Definition is_line_terminator (c : ascii) : bool :=
  (code c =? 10)%N || (code c =? 13)%N.

Fixpoint dropWhile (p : ascii -> bool) (l : list ascii) : list ascii :=
  match l with
  | [] => []
  | c :: t => if p c then dropWhile p t else l
  end.

Fixpoint takeWhile (p : ascii -> bool) (l : list ascii) : list ascii :=
  match l with
  | [] => []
  | c :: t => if p c then c :: takeWhile p t else []
  end.

Definition trim_chars (l : list ascii) : list ascii :=
  rev (dropWhile is_space (rev (dropWhile is_space l))).

Definition lower_char (c : ascii) : ascii :=
  if is_upper c then ascii_of_N (code c + 32) else c.

Definition trim (s : string) : string := of_chars (trim_chars (chars s)).
Definition toLowerCase (s : string) : string :=
  of_chars (map lower_char (chars s)).

(** A JavaScript string is truthy when it is not empty. *)
Definition truthy (s : string) : bool :=
  match s with EmptyString => false | String _ _ => true end.

(** [s.split(sep)] for a one-character separator. *)
Fixpoint split_chars (sep : ascii) (cur : list ascii) (l : list ascii)
  : list (list ascii) :=
  match l with
  | [] => [rev cur]
  | c :: t =>
      if Ascii.eqb c sep then rev cur :: split_chars sep [] t
      else split_chars sep (c :: cur) t
  end.

Definition split (sep : ascii) (s : string) : list string :=
  map of_chars (split_chars sep [] (chars s)).

(** [s.slice(0, n)] and [c.repeat(n)]. *)
Definition slice0 (n : nat) (s : string) : string :=
  of_chars (firstn n (chars s)).
Definition repeat_char (c : ascii) (n : nat) : string :=
  of_chars (repeat c n).

(** The suffixes of a string, the start positions a regular expression
    without anchor is tried at. *)
Fixpoint suffixes (l : list ascii) : list (list ascii) :=
  l :: match l with [] => [] | _ :: t => suffixes t end.

End JsString.

Import JsString.

(** ** Helper functions of the handlers *)

(** [const normalize = (s) => String(s || '').trim().toLowerCase()] *)
Definition normalize (s : option string) : string :=
  match s with
  | None => EmptyString
  | Some s => toLowerCase (trim s)
  end.

(** One character of [[^\s@]]. *)
Definition email_atom (c : ascii) : bool :=
  negb (is_space c) && negb (Ascii.eqb c "@"%char).

(** [[^\s@]+\.[^\s@]+$] on a list already known to hold atoms only: a dot
    that is neither the first nor the last character. *)
Definition inner_dot (d : list ascii) : bool :=
  match d with
  | [] => false
  | _ :: t => existsb (fun c => Ascii.eqb c "."%char) (removelast t)
  end.

(** [/^[^\s@]+@[^\s@]+\.[^\s@]+$/] *)
Definition email_regex (l : list ascii) : bool :=
  let local := takeWhile email_atom l in
  match dropWhile email_atom l with
  | c :: d =>
      Ascii.eqb c "@"%char
      && negb (Nat.eqb (length local) 0)
      && forallb email_atom d
      && inner_dot d
  | [] => false
  end.

(** [const isValidEmail = (e) => /.../.test(normalize(e))] *)
Definition isValidEmail (e : string) : bool :=
  email_regex (chars (normalize (Some e))).

(** The five characters of the HTML-injection check: less-than,
    greater-than, ampersand, double quote, single quote. *)
Definition html_char (c : ascii) : bool :=
  (code c =? 60)%N || (code c =? 62)%N || (code c =? 38)%N
  || (code c =? 34)%N || (code c =? 39)%N.

(** [/(?=.*[a-z])(?=.*[A-Z])(?=.*\d)/]: at some start position the three
    look-aheads succeed; the dot stops at a line terminator. *)
Definition policy_regex (l : list ascii) : bool :=
  existsb
    (fun s =>
       let line := takeWhile (fun c => negb (is_line_terminator c)) s in
       existsb is_lower line && existsb is_upper line && existsb is_digit line)
    (suffixes l).

Definition isValidPassword (password : option string) : bool :=
  match password with
  | None => false
  | Some p =>
      if negb (truthy p) then false
      else if (String.length p <? 8)%nat || (128 <? String.length p)%nat then false
      else if existsb html_char (chars p) then false
      else if negb (policy_regex (chars p)) then false
      else true
  end.

(** [/^\d{6}$/] *)
Definition six_digits (code : string) : bool :=
  Nat.eqb (String.length code) 6 && forallb is_digit (chars code).

Definition maskEmail (email : string) : string :=
  let parts := split "@"%char email in
  let user := nth 0 parts "undefined" in
  let domain := nth 1 parts "undefined" in
  let visible := slice0 (Nat.min 2 (String.length user)) user in
  let stars :=
    repeat_char "*"%char
      (Nat.max 3 (String.length user - String.length visible)) in
  visible ++ stars ++ "@" ++ domain.

(** [n.toString()] for an integer: its decimal digits. *)
Definition digit_char (d : Z) : ascii := ascii_of_N (48 + Z.to_N d).

Fixpoint decimal_go (fuel : nat) (n : Z) (acc : list ascii) : list ascii :=
  match fuel with
  | O => acc
  | S f =>
      let acc' := digit_char (n mod 10) :: acc in
      if n / 10 =? 0 then acc' else decimal_go f (n / 10) acc'
  end.

Definition toString (n : Z) : string :=
  if n <? 0
  then String "-"%char (of_chars (decimal_go (S (Z.to_nat (Z.log2 (- n)))) (- n) []))
  else of_chars (decimal_go (S (Z.to_nat (Z.log2 n))) n []).

(** ** Data model *)

(** A row of the [prospects] table. Its key is (partitionKey, rowKey), both
    the normalized e-mail by convention; [u_email] is the [email] property. *)
Record UserEntity := {
  u_therapistId : string;
  u_email : string;
  u_hashedPassword : string;
  u_etag : nat
}.

(** A row of the [resetrequests] table; its key is ('reset', code). *)
Record TokenEntity := {
  t_therapistId : string;
  t_email : string;
  t_createdAt : Z;
  t_expiresAt : Z;
  t_used : bool;
  t_etag : nat
}.

Abbreviation Key := (string * string)%type (only parsing).

(** The e-mail handed to the sender: the HTML and plain-text bodies are
    fixed templates around the masked address and the code. *)
Record EmailMessage := {
  m_senderAddress : string;
  m_subject : string;
  m_masked : string;
  m_code : string;
  m_to : string
}.

(** The two tables, the e-mails sent so far, and the entity tag the storage
    service hands out at the next write. *)
Record World := {
  prospects : gmap Key UserEntity;
  resetrequests : gmap Key TokenEntity;
  outbox : list EmailMessage;
  next_etag : nat
}.

(** The [etag] of an update: ['*'] matches every version. *)
Inductive IfMatch := AnyETag | ETag (n : nat).

Definition etag_matches (c : IfMatch) (current : nat) : bool :=
  match c with
  | AnyETag => true
  | ETag n => Nat.eqb n current
  end.

(** ** HTTP *)

Inductive Method := POST | OPTIONS.

Record Payload := {
  p_email : option string;
  p_code : option string;
  p_newPassword : option string
}.

(** [json = None]: [req.json()] or the destructuring of its result throws. *)
Record Request := {
  method : Method;
  json : option Payload
}.

Record Body := {
  success : bool;
  message : string;
  redirectTo : option string
}.

Inductive ResponseBody := JsonBody (b : Body) | TextBody (s : string).

Record Response := {
  status : Z;
  headers : list (string * string);
  body : ResponseBody
}.

Record Config := {
  ALLOWED_ORIGIN : option string;
  SENDER_EMAIL : string
}.

(** [a || b] on strings that may be null. *)
Definition or_else (a : option string) (b : string) : string :=
  match a with
  | Some s => if truthy s then s else b
  | None => b
  end.

(** [a ?? b] *)
Definition nullish (a : option string) (b : string) : string :=
  match a with Some s => s | None => b end.

Definition getCorsHeaders (cfg : Config) (allowedOrigin : option string)
  : list (string * string) :=
  let defaultOrigin :=
    nullish (ALLOWED_ORIGIN cfg) "https://www.onlinetherapytools.com" in
  [ ("Access-Control-Allow-Origin", or_else allowedOrigin defaultOrigin);
    ("Access-Control-Allow-Methods", "GET,POST,PUT,DELETE,OPTIONS");
    ("Access-Control-Allow-Headers", "Content-Type,Authorization");
    ("Access-Control-Allow-Credentials", "false");
    ("Content-Type", "application/json") ].

Definition handleCorsOptions (cfg : Config) (allowedOrigin : option string)
  : Response :=
  {| status := 200;
     headers := getCorsHeaders cfg allowedOrigin;
     body := TextBody EmptyString |}.

Definition reply (st : Z) (h : list (string * string)) (ok : bool)
  (msg : string) : Response :=
  {| status := st; headers := h;
     body := JsonBody {| success := ok; message := msg; redirectTo := None |} |}.

(** ** Effects

    A handler is a tree of calls: each remote call, and each read of the
    clock, the random source and the hash, hands its result to the rest of
    the handler. A promise either resolves with a value or rejects; the
    handlers never look at the error. *)

Inductive Outcome (A : Type) : Type :=
| Resolved (a : A)
| Rejected.
Arguments Resolved {A} a.
Arguments Rejected {A}.

Definition resolved {A} (o : Outcome A) : bool :=
  match o with Resolved _ => true | Rejected => false end.

(** The properties an [upsertEntity] of a token record carries. *)
Record TokenFields := {
  f_therapistId : string;
  f_email : string;
  f_createdAt : Z;
  f_expiresAt : Z;
  f_used : bool
}.

Inductive Prog (A : Type) : Type :=
| Ret (a : A)
| NewDate (k : Z -> Prog A)
| MathRandom (k : Z -> Prog A)
| BcryptHash (password : string) (rounds : nat) (k : string -> Prog A)
| ProspectsGetEntity (pk rk : string) (k : Outcome UserEntity -> Prog A)
| ProspectsQueryEntities (therapistId : string)
    (k : Outcome (list (Key * UserEntity)) -> Prog A)
| ProspectsUpdateEntity (pk rk : string) (hashedPassword : string)
    (etag : IfMatch) (k : Outcome unit -> Prog A)
| ResetGetEntity (pk rk : string) (k : Outcome TokenEntity -> Prog A)
| ResetQueryEntities (pk therapistId : string)
    (k : Outcome (list (Key * TokenEntity)) -> Prog A)
| ResetSubmitTransaction (deletes : list Key) (k : Outcome unit -> Prog A)
| ResetUpsertEntity (pk rk : string) (fields : TokenFields)
    (k : Outcome unit -> Prog A)
| ResetDeleteEntity (pk rk : string) (k : Outcome unit -> Prog A)
| ResetUpdateEntity (pk rk : string) (used : bool) (etag : IfMatch)
    (k : Outcome unit -> Prog A)
| EmailSend (msg : EmailMessage) (k : Outcome unit -> Prog A).

Arguments Ret {A} a.
Arguments NewDate {A} k.
Arguments MathRandom {A} k.
Arguments BcryptHash {A} password rounds k.
Arguments ProspectsGetEntity {A} pk rk k.
Arguments ProspectsQueryEntities {A} therapistId k.
Arguments ProspectsUpdateEntity {A} pk rk hashedPassword etag k.
Arguments ResetGetEntity {A} pk rk k.
Arguments ResetQueryEntities {A} pk therapistId k.
Arguments ResetSubmitTransaction {A} deletes k.
Arguments ResetUpsertEntity {A} pk rk fields k.
Arguments ResetDeleteEntity {A} pk rk k.
Arguments ResetUpdateEntity {A} pk rk used etag k.
Arguments EmailSend {A} msg k.

Declare Scope prog_scope.
Delimit Scope prog_scope with prog.
Notation "'await' x <- c ; k" := (c (fun x => k))
  (at level 10, x name, c at level 100, k at level 200) : prog_scope.

(** What a run leaves behind: every call on a table client or on the e-mail
    client, with whether it resolved. *)
Inductive Event :=
| EvProspectsGet (pk rk : string) (ok : bool)
| EvProspectsQuery (therapistId : string) (ok : bool)
| EvProspectsUpdate (pk rk : string) (hashedPassword : string) (ok : bool)
| EvResetGet (pk rk : string) (ok : bool)
| EvResetQuery (pk therapistId : string) (ok : bool)
| EvResetTransaction (deletes : list Key) (ok : bool)
| EvResetUpsert (pk rk : string) (ok : bool)
| EvResetDelete (pk rk : string) (ok : bool)
| EvResetUpdate (pk rk : string) (used : bool) (ok : bool)
| EvEmail (msg : EmailMessage) (ok : bool).

Definition is_email_event (e : Event) : bool :=
  match e with EvEmail _ _ => true | _ => false end.

(** The places a remote call can fail for a reason outside the stored data
    (network, throttling, time-out). *)
Inductive Site :=
| AtProspectsGet | AtProspectsUpdate
| AtResetGet | AtResetTransaction | AtResetUpsert
| AtResetDelete | AtResetUpdate | AtEmail.

(** What one invocation meets: the time it reads, the random number it
    draws, the salted hash it computes and the calls that fail on it. *)
Record Env := {
  clock : Z;
  random : Z;
  bcrypt : string -> nat -> string;
  fails : Site -> bool
}.

(** ** The stores *)

(** Every write to a table draws a fresh entity tag. *)
Definition with_prospects (w : World) (m : gmap Key UserEntity) : World :=
  {| prospects := m; resetrequests := resetrequests w;
     outbox := outbox w; next_etag := S (next_etag w) |}.

Definition with_resetrequests (w : World) (m : gmap Key TokenEntity) : World :=
  {| prospects := prospects w; resetrequests := m;
     outbox := outbox w; next_etag := S (next_etag w) |}.

Definition with_outbox (w : World) (o : list EmailMessage) : World :=
  {| prospects := prospects w; resetrequests := resetrequests w;
     outbox := o; next_etag := next_etag w |}.

(** [table.getEntity(pk, rk)] rejects when the call fails and when no row
    has the key. *)
Definition getEntity {V} (e : Env) (s : Site) (m : gmap Key V) (k : Key)
  : Outcome V :=
  if fails e s then Rejected
  else match m !! k with
       | Some v => Resolved v
       | None => Rejected
       end.

(** [table.queryEntities({ filter })]: [TableClient] has no method of that
    name, so the expression throws a TypeError before any request is sent,
    whatever the table holds and whatever the filter selects. Both places
    that call it sit in a [try], whose [catch] takes over. *)
Definition queryEntities {V} (m : gmap Key V) (sel : Key * V -> bool)
  : Outcome (list (Key * V)) :=
  Rejected.

(** [therapistId eq ...] *)
Definition user_selected (therapistId : string) (r : Key * UserEntity) : bool :=
  String.eqb (u_therapistId (snd r)) therapistId.

(** [PartitionKey eq 'reset' and therapistId eq ...] *)
Definition token_selected (pk therapistId : string) (r : Key * TokenEntity)
  : bool :=
  String.eqb (fst (fst r)) pk && String.eqb (t_therapistId (snd r)) therapistId.

(** Merge of [{ hashedPassword, etag }] into a user row. *)
Definition updateUser (e : Env) (w : World) (k : Key) (h : string)
  (c : IfMatch) : Outcome unit * World :=
  if fails e AtProspectsUpdate then (Rejected, w)
  else match prospects w !! k with
       | Some u =>
           if etag_matches c (u_etag u)
           then (Resolved tt,
                 with_prospects w
                   (<[k := {| u_therapistId := u_therapistId u;
                              u_email := u_email u;
                              u_hashedPassword := h;
                              u_etag := next_etag w |}]> (prospects w)))
           else (Rejected, w)
       | None => (Rejected, w)
       end.

(** Merge of [{ used, etag }] into a token row. *)
Definition updateToken (e : Env) (w : World) (k : Key) (used : bool)
  (c : IfMatch) : Outcome unit * World :=
  if fails e AtResetUpdate then (Rejected, w)
  else match resetrequests w !! k with
       | Some t =>
           if etag_matches c (t_etag t)
           then (Resolved tt,
                 with_resetrequests w
                   (<[k := {| t_therapistId := t_therapistId t;
                              t_email := t_email t;
                              t_createdAt := t_createdAt t;
                              t_expiresAt := t_expiresAt t;
                              t_used := used;
                              t_etag := next_etag w |}]> (resetrequests w)))
           else (Rejected, w)
       | None => (Rejected, w)
       end.

(** [upsertEntity(record, 'Merge')] with all five properties given: the row
    is created, or every property of the row there is replaced. *)
Definition upsertToken (e : Env) (w : World) (k : Key) (f : TokenFields)
  : Outcome unit * World :=
  if fails e AtResetUpsert then (Rejected, w)
  else (Resolved tt,
        with_resetrequests w
          (<[k := {| t_therapistId := f_therapistId f;
                     t_email := f_email f;
                     t_createdAt := f_createdAt f;
                     t_expiresAt := f_expiresAt f;
                     t_used := f_used f;
                     t_etag := next_etag w |}]> (resetrequests w))).

(** [deleteEntity(pk, rk)] rejects when no row has the key. *)
Definition deleteToken (e : Env) (w : World) (k : Key)
  : Outcome unit * World :=
  if fails e AtResetDelete then (Rejected, w)
  else match resetrequests w !! k with
       | Some _ => (Resolved tt, with_resetrequests w (delete k (resetrequests w)))
       | None => (Rejected, w)
       end.

(** A batch of deletes is one transaction: all rows go, or none. *)
Definition submitDeletes (e : Env) (w : World) (ks : list Key)
  : Outcome unit * World :=
  if fails e AtResetTransaction then (Rejected, w)
  else if forallb (fun k => bool_decide (is_Some (resetrequests w !! k))) ks
       then (Resolved tt,
             with_resetrequests w
               (fold_right (fun k m => delete k m) (resetrequests w) ks))
       else (Rejected, w).

(** [beginSend] and [pollUntilDone] of the e-mail client. *)
Definition sendEmail (e : Env) (w : World) (msg : EmailMessage)
  : Outcome unit * World :=
  if fails e AtEmail then (Rejected, w)
  else (Resolved tt, with_outbox w (outbox w ++ [msg])).

(** [Math.random()] as the numerator of a fraction over [2^53]. *)
Definition random53 (e : Env) : Z := random e mod 2 ^ 53.

(** ** Running a handler *)


Definition after {A} (ev : list Event) (res : A * World * list Event)
  : A * World * list Event :=
  let '(a, w, tr) := res in (a, w, (ev ++ tr)%list).

(** A handler run to its response, alone. *)
Fixpoint exec {A} (e : Env) (p : Prog A) (w : World)
  : A * World * list Event :=
  match p with
  | Ret a => (a, w, [])
  | NewDate k => exec e (k (clock e)) w
  | MathRandom k => exec e (k (random53 e)) w
  | BcryptHash pw rounds k => exec e (k (bcrypt e pw rounds)) w
  | ProspectsGetEntity pk rk k =>
      let r := getEntity e AtProspectsGet (prospects w) (pk, rk) in
      after [EvProspectsGet pk rk (resolved r)] (exec e (k r) w)
  | ProspectsQueryEntities tid k =>
      let r := queryEntities (prospects w) (user_selected tid) in
      after [EvProspectsQuery tid (resolved r)] (exec e (k r) w)
  | ProspectsUpdateEntity pk rk h c k =>
      let '(r, w') := updateUser e w (pk, rk) h c in
      after [EvProspectsUpdate pk rk h (resolved r)] (exec e (k r) w')
  | ResetGetEntity pk rk k =>
      let r := getEntity e AtResetGet (resetrequests w) (pk, rk) in
      after [EvResetGet pk rk (resolved r)] (exec e (k r) w)
  | ResetQueryEntities pk tid k =>
      let r := queryEntities (resetrequests w) (token_selected pk tid) in
      after [EvResetQuery pk tid (resolved r)] (exec e (k r) w)
  | ResetSubmitTransaction ks k =>
      let '(r, w') := submitDeletes e w ks in
      after [EvResetTransaction ks (resolved r)] (exec e (k r) w')
  | ResetUpsertEntity pk rk f k =>
      let '(r, w') := upsertToken e w (pk, rk) f in
      after [EvResetUpsert pk rk (resolved r)] (exec e (k r) w')
  | ResetDeleteEntity pk rk k =>
      let '(r, w') := deleteToken e w (pk, rk) in
      after [EvResetDelete pk rk (resolved r)] (exec e (k r) w')
  | ResetUpdateEntity pk rk used c k =>
      let '(r, w') := updateToken e w (pk, rk) used c in
      after [EvResetUpdate pk rk used (resolved r)] (exec e (k r) w')
  | EmailSend msg k =>
      let '(r, w') := sendEmail e w msg in
      after [EvEmail msg (resolved r)] (exec e (k r) w')
  end.


(** ** Binary64 arithmetic

    A double that is a non-negative multiple of [2^-53] is kept as its
    numerator over [2^53], an integer. A double has 53 significant bits:
    [binary64 m] is the numerator of the double nearest to [m / 2^53], the
    one with the even significand when [m] lies half way between two. The
    numbers met here lie between [2^-53] and [2^20], far from the subnormal
    range and from overflow. *)

(** The distance between the doubles around [m / 2^53], times [2^53]. *)
Definition ulp (m : Z) : Z := 2 ^ Z.max 0 (Z.log2 m - 52).

(** Whether the multiple of [u] nearest to [m] is the one above it. *)
Definition rounds_up (u m : Z) : bool :=
  if 2 * (m mod u) <? u then false
  else if u <? 2 * (m mod u) then true
  else negb (Z.even (m / u)).

Definition round_to (u m : Z) : Z :=
  (m / u + (if rounds_up u m then 1 else 0)) * u.

Definition binary64 (m : Z) : Z := round_to (ulp m) m.

(** ** The handlers *)

Section Handlers.

Variable cfg : Config.

Local Open Scope prog_scope.

Definition commonHeaders : list (string * string) := getCorsHeaders cfg None.

(** [!ent.used && exp > now] *)
Definition is_active (now : Z) (ent : TokenEntity) : bool :=
  negb (t_used ent) && (now <? t_expiresAt ent).

(** [Math.floor(100000 + Math.random() * 900000)] for the draw [r / 2^53]:
    the product is rounded, then the sum, then the floor is taken. *)
Definition code_number (r : Z) : Z :=
  binary64 (100000 * 2 ^ 53 + binary64 (r * 900000)) / 2 ^ 53.

Definition resetEmail (email code : string) : EmailMessage :=
  {| m_senderAddress := SENDER_EMAIL cfg;
     m_subject := "Password Reset Code - Online Therapy Tools";
     m_masked := maskEmail email;
     m_code := code;
     m_to := email |}.

Definition account_not_found_200 : Response :=
  {| status := 200; headers := commonHeaders;
     body := JsonBody {| success := false;
                         message := "Account not found.";
                         redirectTo := Some "/subscribe" |} |}.

Definition rate_limited_429 : Response :=
  reply 429 commonHeaders false
    "Too many recent reset requests. Please wait before trying again.".

Definition reset_sent_200 : Response :=
  reply 200 commonHeaders true
    "If your account exists, a reset link has been sent to your email.".

(** Generate and store a new 6-digit code, send it, report success. *)
Definition mint (therapistId email : string) (now : Z) : Prog Response :=
  await r <- MathRandom;
  let code := toString (code_number r) in
  let expiresAt := now + 15 * 60000 in
  let record :=
    {| f_therapistId := therapistId; f_email := email;
       f_createdAt := now; f_expiresAt := expiresAt; f_used := false |} in
  await stored <- ResetUpsertEntity "reset" code record;
  match stored with
  | Rejected =>
      Ret (reply 500 commonHeaders false "Could not generate reset token.")
  | Resolved _ =>
      await _ <- EmailSend (resetEmail email code);
      Ret reset_sent_200
  end.

Definition requestpasswordreset (req : Request) : Prog Response :=
  match method req with
  | OPTIONS => Ret (handleCorsOptions cfg None)
  | POST =>
      match json req with
      | None => Ret (reply 400 commonHeaders false "Invalid request format.")
      | Some payload =>
          let email := normalize (p_email payload) in
          if negb (isValidEmail email)
          then Ret (reply 400 commonHeaders false "A valid email is required.")
          else
            await found <- ProspectsGetEntity email email;
            match found with
            | Rejected => Ret account_not_found_200
            | Resolved user =>
                let therapistId := u_therapistId user in
                await now <- NewDate;
                await listed <- ResetQueryEntities "reset" therapistId;
                match listed with
                | Rejected => mint therapistId email now
                | Resolved ents =>
                    let active :=
                      List.filter (fun ent => is_active now (snd ent)) ents in
                    let batchDeletes :=
                      map (fun ent => ("reset", snd (fst ent)))
                        (List.filter
                           (fun ent => negb (is_active now (snd ent))) ents) in
                    let limit (cleaned : Outcome unit) :=
                      match cleaned with
                      | Rejected => mint therapistId email now
                      | Resolved _ =>
                          if (2 <=? length active)%nat
                          then Ret rate_limited_429
                          else mint therapistId email now
                      end in
                    match batchDeletes with
                    | [] => limit (Resolved tt)
                    | _ :: _ => await cleaned <- ResetSubmitTransaction batchDeletes;
                                limit cleaned
                    end
                end
            end
      end
  end.

Definition password_policy_message : string :=
  "Password must be 8-128 characters with at least one uppercase letter, one lowercase letter, and one digit. HTML characters are not allowed.".

Definition resetpassword (req : Request) : Prog Response :=
  match method req with
  | OPTIONS => Ret (handleCorsOptions cfg None)
  | POST =>
      match json req with
      | None => Ret (reply 400 commonHeaders false "Invalid request format.")
      | Some payload =>
          let email := normalize (p_email payload) in
          let code := nullish (p_code payload) EmptyString in
          let newPassword := p_newPassword payload in
          if negb (truthy email) || negb (isValidEmail email)
          then Ret (reply 400 commonHeaders false "Valid email is required.")
          else if negb (truthy code) || negb (six_digits code)
          then Ret (reply 400 commonHeaders false "Valid 6-digit code is required.")
          else if negb (isValidPassword newPassword)
          then Ret (reply 400 commonHeaders false password_policy_message)
          else
            await fetched <- ResetGetEntity "reset" code;
            match fetched with
            | Rejected =>
                Ret (reply 400 commonHeaders false "Invalid or expired code.")
            | Resolved codeRec =>
                if negb (String.eqb (normalize (Some (t_email codeRec))) email)
                then Ret (reply 400 commonHeaders false "Invalid code or email.")
                else
                  await now <- NewDate;
                  if (t_expiresAt codeRec <=? now) || t_used codeRec
                  then
                    await _ <- ResetDeleteEntity "reset" code;
                    Ret (reply 400 commonHeaders false
                           "Code has expired or already been used.")
                  else
                    let therapistId := t_therapistId codeRec in
                    await marked <- ResetUpdateEntity "reset" code true AnyETag;
                    match marked with
                    | Rejected => Ret (reply 500 commonHeaders false "Server error.")
                    | Resolved _ =>
                        await scanned <- ProspectsQueryEntities therapistId;
                        match scanned with
                        | Rejected | Resolved [] =>
                            Ret (reply 400 commonHeaders false "Account not found.")
                        | Resolved ((_, user) :: _) =>
                            await hashedPassword <-
                              BcryptHash (nullish newPassword EmptyString) 10;
                            await written <-
                              ProspectsUpdateEntity (u_email user) (u_email user)
                                hashedPassword AnyETag;
                            match written with
                            | Rejected =>
                                Ret (reply 500 commonHeaders false
                                       "Failed to update password.")
                            | Resolved _ =>
                                Ret (reply 200 commonHeaders true
                                       "Password reset successfully.")
                            end
                        end
                    end
            end
      end
  end.

End Handlers.

(** ** Vocabulary of the statements *)

(** A POST request whose body parsed into a payload. *)
Definition post (p : Payload) : Request := {| method := POST; json := Some p |}.

Definition response_of {A} (r : A * World * list Event) : A := fst (fst r).
Definition world_of {A} (r : A * World * list Event) : World := snd (fst r).
Definition trace_of {A} (r : A * World * list Event) : list Event := snd r.

(** The token records of an owner, the ones the filter of issuance selects,
    and those among them that are unused and unexpired at [now]. *)
Definition owned_tokens (w : World) (therapistId : string)
  : list (Key * TokenEntity) :=
  List.filter (token_selected "reset" therapistId)
    (map_to_list (resetrequests w)).

Definition active_tokens (w : World) (therapistId : string) (now : Z)
  : list (Key * TokenEntity) :=
  List.filter (fun ent => is_active now (snd ent)) (owned_tokens w therapistId).

(** The code an invocation mints. *)
Definition minted_code (e : Env) : string := toString (code_number (random53 e)).

Definition is_upsert_event (ev : Event) : bool :=
  match ev with EvResetUpsert _ _ _ => true | _ => false end.

Definition redeemed_200 (cfg : Config) : Response :=
  reply 200 (commonHeaders cfg) true "Password reset successfully.".

Definition refused_400 (cfg : Config) : Response :=
  reply 400 (commonHeaders cfg) false "Code has expired or already been used.".

Definition account_not_found_400 (cfg : Config) : Response :=
  reply 400 (commonHeaders cfg) false "Account not found.".

(** A call of one of the two handlers, with what the invocation meets. *)
Inductive Call :=
| Issuance (e : Env) (req : Request)
| Redemption (e : Env) (req : Request).

Definition handle (cfg : Config) (c : Call) (w : World)
  : Response * World * list Event :=
  match c with
  | Issuance e req => exec e (requestpasswordreset cfg req) w
  | Redemption e req => exec e (resetpassword cfg req) w
  end.

(** Calls served one after the other. *)
Fixpoint run_calls (cfg : Config) (calls : list Call) (w : World)
  : list Response * World :=
  match calls with
  | [] => ([], w)
  | c :: rest =>
      let '(r, w', _) := handle cfg c w in
      let '(rs, w'') := run_calls cfg rest w' in
      (r :: rs, w'')
  end.




(** A trace with no write of a token record and no e-mail. *)
Definition quiet (tr : list Event) : Prop :=
  Forall (fun ev => is_upsert_event ev = false /\ is_email_event ev = false) tr.

(** The first character of a list, if any, fails [p]. *)
Definition starts_clean (p : ascii -> bool) (l : list ascii) : bool :=
  match l with [] => true | c :: _ => negb (p c) end.

(** The shape of the token table the two handlers keep up: every row sits
    in the partition 'reset' under a code of six digits, holds a normalized
    address, and expires fifteen minutes after its creation. *)
Definition token_rows_wellformed (w : World) : Prop :=
  forall k t,
    resetrequests w !! k = Some t ->
    fst k = "reset"
    /\ six_digits (snd k) = true
    /\ normalize (Some (t_email t)) = t_email t
    /\ t_expiresAt t = t_createdAt t + 15 * 60000.

(** A string of ASCII characters, or an absent one. *)
Definition ascii_only (s : option string) : bool :=
  match s with
  | None => true
  | Some s => forallb (in_range 0 127) (chars s)
  end.

(** ** Sample data

    A small deployment used by the examples below: two users, and token
    tables in the states the statements talk about. *)

Module Sample.

Definition cfg : Config :=
  {| ALLOWED_ORIGIN := None; SENDER_EMAIL := "noreply@example.com" |}.

(** A stand-in for the salted hash: any function will do. *)
Definition hash (pw : string) (rounds : nat) : string := "$2a$" ++ pw.

Definition never_fails (s : Site) : bool := false.

Definition failing (at_site : Site) (s : Site) : bool :=
  match at_site, s with
  | AtProspectsGet, AtProspectsGet
  | AtProspectsUpdate, AtProspectsUpdate | AtResetGet, AtResetGet
  | AtResetTransaction, AtResetTransaction
  | AtResetUpsert, AtResetUpsert | AtResetDelete, AtResetDelete
  | AtResetUpdate, AtResetUpdate | AtEmail, AtEmail => true
  | _, _ => false
  end.

(** An invocation at time 1000 that draws the least random number, so
    that it mints the code 100000. *)
Definition env : Env :=
  {| clock := 1000; random := 0; bcrypt := hash; fails := never_fails |}.

(** An invocation that draws the middle of the range and mints 550000. *)
Definition env_mid : Env :=
  {| clock := 1000; random := 2 ^ 52; bcrypt := hash; fails := never_fails |}.

Definition env_failing (s : Site) : Env :=
  {| clock := 1000; random := 0; bcrypt := hash; fails := failing s |}.

Definition alice : UserEntity :=
  {| u_therapistId := "T1"; u_email := "alice@example.com";
     u_hashedPassword := "$2a$old-alice"; u_etag := 0 |}.

Definition bob : UserEntity :=
  {| u_therapistId := "T2"; u_email := "bob@example.com";
     u_hashedPassword := "$2a$old-bob"; u_etag := 1 |}.

Definition users : gmap Key UserEntity :=
  <[("alice@example.com", "alice@example.com") := alice]>
    (<[("bob@example.com", "bob@example.com") := bob]> ∅).

Definition token (owner email : string) (created : Z) (used : bool) (tag : nat)
  : TokenEntity :=
  {| t_therapistId := owner; t_email := email; t_createdAt := created;
     t_expiresAt := created + 900000; t_used := used; t_etag := tag |}.

Definition world (tokens : gmap Key TokenEntity) : World :=
  {| prospects := users; resetrequests := tokens; outbox := [];
     next_etag := 10 |}.

(** No token at all. *)
Definition w_empty : World := world ∅.

(** Alice holds one active token, 111111. *)
Definition w_alice_one : World :=
  world (<[("reset", "111111") := token "T1" "alice@example.com" 500 false 2]> ∅).

(** Alice holds two active tokens. *)
Definition w_alice_two : World :=
  world (<[("reset", "111111") := token "T1" "alice@example.com" 500 false 2]>
           (<[("reset", "222222") := token "T1" "alice@example.com" 600 false 3]> ∅)).

(** Bob holds the token 100000 and has used it. *)
Definition w_bob_used : World :=
  world (<[("reset", "100000") := token "T2" "bob@example.com" 500 true 2]> ∅).

(** Alice holds the active token 111111, Bob the used token 100000. *)
Definition w_alice_and_bob_used : World :=
  world (<[("reset", "111111") := token "T1" "alice@example.com" 500 false 2]>
           (<[("reset", "100000") := token "T2" "bob@example.com" 500 true 3]> ∅)).

(** Bob holds the token 100000, active. *)
Definition w_bob_active : World :=
  world (<[("reset", "100000") := token "T2" "bob@example.com" 500 false 2]> ∅).

Definition issue (email : string) : Request :=
  post {| p_email := Some email; p_code := None; p_newPassword := None |}.

Definition redeem (email code pw : string) : Request :=
  post {| p_email := Some email; p_code := Some code;
          p_newPassword := Some pw |}.

End Sample.

Arguments normalize : simpl never.
Arguments isValidEmail : simpl never.
Arguments isValidPassword : simpl never.
Arguments six_digits : simpl never.
Arguments toString : simpl never.
Arguments code_number : simpl never.
Arguments random53 : simpl never.
Arguments maskEmail : simpl never.
Arguments getCorsHeaders : simpl never.
Arguments commonHeaders : simpl never.

(** * Properties *)

(** ** The helpers on examples *)

Example normalize_alice :
  normalize (Some "Alice@Example.com ") = "alice@example.com".
Proof. reflexivity. Qed.

Example email_ok : isValidEmail " Bob@Mail.Example.org" = true.
Proof. reflexivity. Qed.

Example email_two_ats : isValidEmail "a@b@c.d" = false.
Proof. reflexivity. Qed.

Example email_trailing_dot : isValidEmail "a@b." = false.
Proof. reflexivity. Qed.

Example password_lower_only : isValidPassword (Some "abcdefgh") = false.
Proof. reflexivity. Qed.

Example password_ok : isValidPassword (Some "Abcdefg1") = true.
Proof. reflexivity. Qed.

Example mask_alice : maskEmail "alice@example.com" = "al***@example.com".
Proof. reflexivity. Qed.

Example mask_short : maskEmail "a@x.io" = "a***@x.io".
Proof. reflexivity. Qed.

(** The look-aheads of the password policy do not cross a line break. *)
Example password_classes_on_two_lines :
  isValidPassword (Some (String "a" (String "b" (String "c" (String "d"
    (String "e" (String "f" (String "g" (String "010" "A1"))))))))) = false.
Proof. reflexivity. Qed.

Example six_digits_ok : six_digits "012345" = true.
Proof. reflexivity. Qed.

Example six_digits_newline : six_digits (String "1" (String "2" (String "3"
    (String "4" (String "5" (String "6" (String "010" EmptyString))))))) = false.
Proof. reflexivity. Qed.

Example toString_sample : toString 1234567890 = "1234567890".
Proof. reflexivity. Qed.

(** ** Input validation *)

Lemma truthy_of_valid_email s : isValidEmail s = true -> truthy s = true.
Proof. destruct s; [discriminate | reflexivity]. Qed.

Lemma truthy_of_six_digits s : six_digits s = true -> truthy s = true.
Proof. destruct s; [discriminate | reflexivity]. Qed.

(** The three checks of [resetpassword] pass on a payload. *)
Lemma resetpassword_checks_pass (email code : string) (pw : option string) :
  isValidEmail email = true -> six_digits code = true ->
  isValidPassword pw = true ->
  negb (truthy email) || negb (isValidEmail email) = false
  /\ negb (truthy code) || negb (six_digits code) = false
  /\ negb (isValidPassword pw) = false.
Proof.
  intros He Hc Hp.
  rewrite (truthy_of_valid_email _ He), (truthy_of_six_digits _ Hc), He, Hc, Hp.
  repeat split.
Qed.

(** C8: a redemption call whose email fails the shape check, whose code is
    not exactly six digits or whose new password fails the policy gets a 400
    response carrying the message of the first failing field, and no call to
    either table (or to anything else) is made: the trace is empty and the
    world is the one before. *)
Theorem resetpassword_invalid_input cfg e w p :
  let email := normalize (p_email p) in
  let code := nullish (p_code p) EmptyString in
  isValidEmail email = false
  \/ six_digits code = false
  \/ isValidPassword (p_newPassword p) = false ->
  exists msg,
    exec e (resetpassword cfg (post p)) w
    = (reply 400 (commonHeaders cfg) false msg, w, [])
    /\ msg = (if negb (isValidEmail email) then "Valid email is required."
              else if negb (six_digits code)
                   then "Valid 6-digit code is required."
                   else password_policy_message).
Proof.
  intros email code H. unfold resetpassword, post. simpl.
  fold email code.
  destruct (isValidEmail email) eqn:He; simpl.
  2:{ rewrite orb_true_r. eexists; split; reflexivity. }
  rewrite (truthy_of_valid_email _ He). simpl.
  destruct (six_digits code) eqn:Hc; simpl.
  2:{ rewrite orb_true_r. eexists; split; reflexivity. }
  rewrite (truthy_of_six_digits _ Hc). simpl.
  destruct (isValidPassword (p_newPassword p)) eqn:Hp; simpl.
  - destruct H as [H | [H | H]]; discriminate.
  - eexists; split; reflexivity.
Qed.

Lemma resetpassword_invalid_input_witness :
  exists msg,
    exec Sample.env
      (resetpassword Sample.cfg
         (Sample.redeem "alice@example.com" "123456" "abcdefgh"))
      Sample.w_alice_one
    = (reply 400 (commonHeaders Sample.cfg) false msg, Sample.w_alice_one, [])
    /\ msg = password_policy_message.
Proof.
  apply (resetpassword_invalid_input Sample.cfg Sample.env Sample.w_alice_one
           {| p_email := Some "alice@example.com"; p_code := Some "123456";
              p_newPassword := Some "abcdefgh" |}).
  right; right. reflexivity.
Defined.

(** ** Frame lemmas of the store operations *)

Lemma deleteToken_prospects e w k :
  prospects (snd (deleteToken e w k)) = prospects w.
Proof.
  unfold deleteToken.
  destruct (fails e AtResetDelete); [reflexivity |].
  destruct (resetrequests w !! k); reflexivity.
Qed.

(** A token row is deleted or kept by [deleteToken], never changed. *)
Lemma deleteToken_lookup e w k k' :
  resetrequests (snd (deleteToken e w k)) !! k' = None
  \/ resetrequests (snd (deleteToken e w k)) !! k' = resetrequests w !! k'.
Proof.
  unfold deleteToken.
  destruct (fails e AtResetDelete); [right; reflexivity |].
  destruct (resetrequests w !! k) eqn:Hk; [| right; reflexivity].
  simpl. destruct (decide (k = k')) as [-> | Hne].
  - left. apply lookup_delete_eq.
  - right. apply lookup_delete_ne. exact Hne.
Qed.

(** ** Issuance: the user lookup *)

(** C10: on an issuance call with a valid email, a user lookup that fails,
    be it because the store call fails or because no row has that key, gets
    the same response: status 200, success false, Account not found.,
    redirectTo /subscribe; nothing is written and nothing else is called. *)
Theorem requestpasswordreset_lookup_failure cfg e w p :
  let email := normalize (p_email p) in
  isValidEmail email = true ->
  fails e AtProspectsGet = true \/ prospects w !! (email, email) = None ->
  exec e (requestpasswordreset cfg (post p)) w
  = ({| status := 200;
        headers := commonHeaders cfg;
        body := JsonBody {| success := false;
                            message := "Account not found.";
                            redirectTo := Some "/subscribe" |} |},
     w, [EvProspectsGet email email false]).
Proof.
  intros email He H. subst email. unfold requestpasswordreset, post. simpl.
  rewrite He. simpl. unfold getEntity.
  destruct H as [-> | H]; [reflexivity |].
  destruct (fails e AtProspectsGet); [reflexivity |].
  rewrite H. reflexivity.
Qed.

(** The user exists but the store is unreachable: same response as for an
    address nobody registered. *)
Lemma requestpasswordreset_lookup_failure_witness :
  exec (Sample.env_failing AtProspectsGet)
    (requestpasswordreset Sample.cfg (Sample.issue "Alice@Example.com "))
    Sample.w_empty
  = ({| status := 200;
        headers := commonHeaders Sample.cfg;
        body := JsonBody {| success := false;
                            message := "Account not found.";
                            redirectTo := Some "/subscribe" |} |},
     Sample.w_empty,
     [EvProspectsGet "alice@example.com" "alice@example.com" false])
  /\ exec Sample.env
       (requestpasswordreset Sample.cfg (Sample.issue "carol@example.com"))
       Sample.w_empty
     = ({| status := 200;
           headers := commonHeaders Sample.cfg;
           body := JsonBody {| success := false;
                               message := "Account not found.";
                               redirectTo := Some "/subscribe" |} |},
        Sample.w_empty,
        [EvProspectsGet "carol@example.com" "carol@example.com" false]).
Proof.
  split.
  - apply (requestpasswordreset_lookup_failure Sample.cfg
             (Sample.env_failing AtProspectsGet) Sample.w_empty
             {| p_email := Some "Alice@Example.com "; p_code := None;
                p_newPassword := None |}).
    + reflexivity.
    + left. reflexivity.
  - apply (requestpasswordreset_lookup_failure Sample.cfg Sample.env
             Sample.w_empty
             {| p_email := Some "carol@example.com"; p_code := None;
                p_newPassword := None |}).
    + reflexivity.
    + right. reflexivity.
Defined.

(** ** Redemption: the rejections *)

(** C2, as the code has it: on a redemption call that passes validation, a
    code with no token record (or a failed fetch) and a code whose record
    holds another email both get status 400 with success false and leave the
    world untouched, but the messages differ: Invalid or expired code. for
    the first, Invalid code or email. for the second. *)
Theorem resetpassword_unknown_code_vs_wrong_email cfg e w p :
  let email := normalize (p_email p) in
  let code := nullish (p_code p) EmptyString in
  isValidEmail email = true ->
  six_digits code = true ->
  isValidPassword (p_newPassword p) = true ->
  (fails e AtResetGet = true \/ resetrequests w !! ("reset", code) = None ->
   exec e (resetpassword cfg (post p)) w
   = (reply 400 (commonHeaders cfg) false "Invalid or expired code.",
      w, [EvResetGet "reset" code false]))
  /\ (forall t,
        fails e AtResetGet = false ->
        resetrequests w !! ("reset", code) = Some t ->
        normalize (Some (t_email t)) <> email ->
        exec e (resetpassword cfg (post p)) w
        = (reply 400 (commonHeaders cfg) false "Invalid code or email.",
           w, [EvResetGet "reset" code true]))
  /\ reply 400 (commonHeaders cfg) false "Invalid or expired code."
     <> reply 400 (commonHeaders cfg) false "Invalid code or email.".
Proof.
  intros email code He Hc Hp.
  destruct (resetpassword_checks_pass _ _ _ He Hc Hp) as (Ce & Cc & Cp).
  split; [| split].
  - intros H. subst email code. unfold resetpassword, post. simpl.
    rewrite Ce, Cc, Cp. simpl. unfold getEntity.
    destruct H as [-> | H]; [reflexivity |].
    destruct (fails e AtResetGet); [reflexivity |].
    rewrite H. reflexivity.
  - intros t Hf Ht Hne. subst email code. unfold resetpassword, post. simpl.
    rewrite Ce, Cc, Cp. simpl. unfold getEntity. rewrite Hf, Ht. simpl.
    apply String.eqb_neq in Hne. rewrite Hne. reflexivity.
  - unfold reply. intros [=].
Qed.

Lemma resetpassword_unknown_code_vs_wrong_email_witness :
  exec Sample.env
    (resetpassword Sample.cfg (Sample.redeem "alice@example.com" "100000" "Abcdefg1"))
    Sample.w_empty
  = (reply 400 (commonHeaders Sample.cfg) false "Invalid or expired code.",
     Sample.w_empty, [EvResetGet "reset" "100000" false])
  /\ exec Sample.env
       (resetpassword Sample.cfg (Sample.redeem "alice@example.com" "100000" "Abcdefg1"))
       Sample.w_bob_active
     = (reply 400 (commonHeaders Sample.cfg) false "Invalid code or email.",
        Sample.w_bob_active, [EvResetGet "reset" "100000" true]).
Proof.
  pose proof (resetpassword_unknown_code_vs_wrong_email Sample.cfg Sample.env
                Sample.w_empty
                {| p_email := Some "alice@example.com"; p_code := Some "100000";
                   p_newPassword := Some "Abcdefg1" |}
                eq_refl eq_refl eq_refl) as (Habsent & _ & _).
  pose proof (resetpassword_unknown_code_vs_wrong_email Sample.cfg Sample.env
                Sample.w_bob_active
                {| p_email := Some "alice@example.com"; p_code := Some "100000";
                   p_newPassword := Some "Abcdefg1" |}
                eq_refl eq_refl eq_refl) as (_ & Hother & _).
  split.
  - apply Habsent. right. reflexivity.
  - apply (Hother (Sample.token "T2" "bob@example.com" 500 false 2)).
    + reflexivity.
    + reflexivity.
    + vm_compute. intros [=].
Defined.

(** C2 as stated fails: the same valid request gets two different
    responses, one when the code has no record and one when its record
    belongs to another email. *)
Lemma unknown_code_and_wrong_email_differ :
  response_of
    (exec Sample.env
       (resetpassword Sample.cfg (Sample.redeem "alice@example.com" "100000" "Abcdefg1"))
       Sample.w_empty)
  <> response_of
       (exec Sample.env
          (resetpassword Sample.cfg (Sample.redeem "alice@example.com" "100000" "Abcdefg1"))
          Sample.w_bob_active).
Proof. vm_compute. intros [=]. Qed.

(** C5: a redemption call whose code has no record, has a record of another
    email, has an expired record or has a used record gets status 400, and
    the table of user rows, so every hashed password in it, is the one
    before the call. *)
Theorem resetpassword_rejected_frame cfg e w p :
  let email := normalize (p_email p) in
  let code := nullish (p_code p) EmptyString in
  resetrequests w !! ("reset", code) = None
  \/ (exists t, resetrequests w !! ("reset", code) = Some t
        /\ (normalize (Some (t_email t)) <> email
            \/ t_expiresAt t <= clock e
            \/ t_used t = true)) ->
  status (response_of (exec e (resetpassword cfg (post p)) w)) = 400
  /\ prospects (world_of (exec e (resetpassword cfg (post p)) w)) = prospects w.
Proof.
  intros email code H. unfold resetpassword, post, response_of, world_of.
  simpl. change (normalize (p_email p)) with email.
  change (nullish (p_code p) EmptyString) with code.
  destruct (negb (truthy email) || negb (isValidEmail email));
    [split; reflexivity |].
  destruct (negb (truthy code) || negb (six_digits code));
    [split; reflexivity |].
  destruct (negb (isValidPassword (p_newPassword p)));
    [split; reflexivity |].
  simpl. unfold getEntity.
  destruct (fails e AtResetGet); [split; reflexivity |].
  destruct (resetrequests w !! ("reset", code)) as [t |] eqn:Ht;
    [| split; reflexivity].
  simpl.
  destruct H as [H | (t' & Ht' & H)]; [discriminate |].
  injection Ht' as <-.
  destruct (String.eqb_spec (normalize (Some (t_email t))) email) as [Heq | Hne];
    simpl; [| split; reflexivity].
  assert ((t_expiresAt t <=? clock e) || t_used t = true) as ->.
  { destruct H as [H | [H | H]].
    - contradiction.
    - apply Z.leb_le in H. rewrite H. reflexivity.
    - rewrite H. apply orb_true_r. }
  pose proof (deleteToken_prospects e w ("reset", code)) as Hd.
  simpl.
  destruct (deleteToken e w ("reset", code)) as [o w']. simpl in *.
  split; [reflexivity | exact Hd].
Qed.

Lemma resetpassword_rejected_frame_witness :
  status (response_of
            (exec Sample.env
               (resetpassword Sample.cfg
                  (Sample.redeem "bob@example.com" "100000" "Abcdefg1"))
               Sample.w_bob_used)) = 400
  /\ prospects
       (world_of
          (exec Sample.env
             (resetpassword Sample.cfg
                (Sample.redeem "bob@example.com" "100000" "Abcdefg1"))
             Sample.w_bob_used))
     = prospects Sample.w_bob_used.
Proof.
  apply (resetpassword_rejected_frame Sample.cfg Sample.env Sample.w_bob_used
           {| p_email := Some "bob@example.com"; p_code := Some "100000";
              p_newPassword := Some "Abcdefg1" |}).
  right. exists (Sample.token "T2" "bob@example.com" 500 true 2).
  split; [reflexivity |]. right; right. reflexivity.
Defined.

(** ** Rounding to binary64 *)

Example binary64_exact : binary64 (100000 * 2 ^ 53) = 100000 * 2 ^ 53.
Proof. reflexivity. Qed.

(** A draw at which the rounded sum reaches the next integer: the exact
    value of the sum lies below 100015, the double nearest to it is 100015. *)
Example code_number_rounds_up :
  code_number 150119987579 = 100015
  /\ (100000 * 2 ^ 53 + 150119987579 * 900000) / 2 ^ 53 = 100014.
Proof. split; reflexivity. Qed.

Example code_number_least : code_number 0 = 100000.
Proof. reflexivity. Qed.

Example code_number_greatest : code_number (2 ^ 53 - 1) = 999999.
Proof. reflexivity. Qed.

Lemma rounds_up_later u m1 m2 :
  0 < u -> m1 <= m2 -> m1 / u = m2 / u ->
  rounds_up u m1 = true -> rounds_up u m2 = true.
Proof.
  intros Hu Hle Hq. unfold rounds_up. rewrite <- Hq.
  assert (m1 mod u <= m2 mod u) as Hr.
  { rewrite !Z.mod_eq by lia. rewrite <- Hq. lia. }
  destruct (Z.ltb_spec (2 * (m1 mod u)) u); [discriminate |].
  destruct (Z.ltb_spec (2 * (m2 mod u)) u); [lia |].
  destruct (Z.ltb_spec u (2 * (m1 mod u))).
  - destruct (Z.ltb_spec u (2 * (m2 mod u))); [reflexivity | lia].
  - destruct (Z.ltb_spec u (2 * (m2 mod u))); [reflexivity |]. auto.
Qed.

Lemma round_to_mono u m1 m2 :
  0 < u -> m1 <= m2 -> round_to u m1 <= round_to u m2.
Proof.
  intros Hu Hle. unfold round_to.
  apply Z.mul_le_mono_nonneg_r; [lia |].
  pose proof (Z.div_le_mono m1 m2 u Hu Hle) as Hq.
  destruct (Z.eq_dec (m1 / u) (m2 / u)) as [Heq | Hne].
  - destruct (rounds_up u m1) eqn:H1.
    + rewrite (rounds_up_later u m1 m2 Hu Hle Heq H1). lia.
    + destruct (rounds_up u m2); lia.
  - destruct (rounds_up u m1), (rounds_up u m2); lia.
Qed.

Lemma round_to_multiple u k : 0 < u -> round_to u (k * u) = k * u.
Proof.
  intros Hu. unfold round_to, rounds_up.
  rewrite Z.mod_mul, Z.div_mul by lia.
  destruct (Z.ltb_spec (2 * 0) u); [| lia]. lia.
Qed.

Lemma round_to_le_multiple u m k :
  0 < u -> m <= k * u -> round_to u m <= k * u.
Proof.
  intros Hu Hle. rewrite <- (round_to_multiple u k Hu).
  apply round_to_mono; assumption.
Qed.

Lemma round_to_ge_multiple u m k :
  0 < u -> k * u <= m -> k * u <= round_to u m.
Proof.
  intros Hu Hle. rewrite <- (round_to_multiple u k Hu).
  apply round_to_mono; assumption.
Qed.

Lemma ulp_pos m : 0 < ulp m.
Proof. unfold ulp. apply Z.pow_pos_nonneg; lia. Qed.

(** Rounding keeps the order: a larger number never rounds to a smaller
    double. *)
Lemma binary64_mono a b : 0 <= a <= b -> binary64 a <= binary64 b.
Proof.
  intros [Ha Hab]. unfold binary64.
  pose proof (Z.log2_le_mono a b Hab) as Hlog.
  destruct (Z.eq_dec (Z.max 0 (Z.log2 a - 52)) (Z.max 0 (Z.log2 b - 52)))
    as [Heq | Hne].
  - unfold ulp. rewrite Heq. apply round_to_mono; [| exact Hab].
    apply Z.pow_pos_nonneg; lia.
  - assert (Z.log2 a < Z.log2 b /\ 52 < Z.log2 b) as [Hlt Hbig] by lia.
    assert (0 < b) as Hb.
    { destruct (Z.eq_dec b 0) as [-> | ?]; [simpl in Hbig; lia | lia]. }
    pose proof (Z.log2_spec b Hb) as [Hlow _].
    assert (a < 2 ^ Z.log2 b) as Hup.
    { destruct (Z.eq_dec a 0) as [-> | ?]; [apply Z.pow_pos_nonneg; lia |].
      pose proof (Z.log2_spec a ltac:(lia)) as [_ Ha'].
      apply (Z.lt_le_trans _ _ _ Ha').
      apply Z.pow_le_mono_r; lia. }
    assert (forall m, Z.log2 m <= Z.log2 b ->
              2 ^ Z.log2 b = 2 ^ (Z.log2 b - Z.max 0 (Z.log2 m - 52)) * ulp m)
      as Hmult.
    { intros m Hm. unfold ulp. rewrite <- Z.pow_add_r by lia. f_equal. lia. }
    apply (Z.le_trans _ (2 ^ Z.log2 b)).
    + rewrite (Hmult a Hlog).
      apply round_to_le_multiple; [apply ulp_pos |].
      rewrite <- (Hmult a Hlog). lia.
    + rewrite (Hmult b (Z.le_refl _)).
      apply round_to_ge_multiple; [apply ulp_pos |].
      rewrite <- (Hmult b (Z.le_refl _)). exact Hlow.
Qed.

Lemma binary64_nonneg m : 0 <= m -> 0 <= binary64 m.
Proof.
  intros Hm. change 0 with (binary64 0) at 1. apply binary64_mono. lia.
Qed.

(** ** The minted code *)

Lemma random53_range e : 0 <= random53 e < 2 ^ 53.
Proof. unfold random53. apply Z.mod_pos_bound. reflexivity. Qed.

Lemma code_number_mono r1 r2 :
  0 <= r1 <= r2 -> code_number r1 <= code_number r2.
Proof.
  intros [H1 H12]. unfold code_number.
  apply Z.div_le_mono; [reflexivity |].
  apply binary64_mono. pose proof (binary64_nonneg (r1 * 900000)).
  assert (binary64 (r1 * 900000) <= binary64 (r2 * 900000))
    by (apply binary64_mono; lia).
  lia.
Qed.

(** The number the handler computes lies between 100000 and 999999 also
    with the two roundings: the greatest draw gives 999999. *)
Lemma code_number_range r :
  0 <= r < 2 ^ 53 -> 100000 <= code_number r <= 999999.
Proof.
  intros Hr. split.
  - change 100000 with (code_number 0). apply code_number_mono. lia.
  - change 999999 with (code_number (2 ^ 53 - 1)). apply code_number_mono. lia.
Qed.
Lemma digit_char_is_digit d : 0 <= d < 10 -> is_digit (digit_char d) = true.
Proof.
  intros Hd.
  assert (d = 0 \/ d = 1 \/ d = 2 \/ d = 3 \/ d = 4 \/ d = 5 \/ d = 6
          \/ d = 7 \/ d = 8 \/ d = 9) as H by lia.
  repeat (destruct H as [-> | H]; [reflexivity |]). subst d. reflexivity.
Qed.

Lemma decimal_go_six fuel n :
  (6 <= fuel)%nat -> 100000 <= n <= 999999 ->
  decimal_go fuel n []
  = [digit_char (n / 100000 mod 10); digit_char (n / 10000 mod 10);
     digit_char (n / 1000 mod 10); digit_char (n / 100 mod 10);
     digit_char (n / 10 mod 10); digit_char (n mod 10)].
Proof.
  intros Hf Hn.
  do 6 (destruct fuel as [| fuel]; [lia |]).
  assert (H1 : n / 10 / 10 = n / 100) by (rewrite Z.div_div by lia; reflexivity).
  assert (H2 : n / 100 / 10 = n / 1000) by (rewrite Z.div_div by lia; reflexivity).
  assert (H3 : n / 1000 / 10 = n / 10000) by (rewrite Z.div_div by lia; reflexivity).
  assert (H4 : n / 10000 / 10 = n / 100000) by (rewrite Z.div_div by lia; reflexivity).
  assert (H5 : n / 100000 / 10 = 0) by (rewrite Z.div_div by lia; apply Z.div_small; lia).
  assert (N1 : (n / 10 =? 0) = false) by (apply Z.eqb_neq; intros E; pose proof (Z.div_le_lower_bound n 10 10000 ltac:(lia) ltac:(lia)); lia).
  assert (N2 : (n / 100 =? 0) = false) by (apply Z.eqb_neq; intros E; pose proof (Z.div_le_lower_bound n 100 1000 ltac:(lia) ltac:(lia)); lia).
  assert (N3 : (n / 1000 =? 0) = false) by (apply Z.eqb_neq; intros E; pose proof (Z.div_le_lower_bound n 1000 100 ltac:(lia) ltac:(lia)); lia).
  assert (N4 : (n / 10000 =? 0) = false) by (apply Z.eqb_neq; intros E; pose proof (Z.div_le_lower_bound n 10000 10 ltac:(lia) ltac:(lia)); lia).
  assert (N5 : (n / 100000 =? 0) = false) by (apply Z.eqb_neq; intros E; pose proof (Z.div_le_lower_bound n 100000 1 ltac:(lia) ltac:(lia)); lia).
  cbn [decimal_go].
  rewrite N1, H1, N2, H2, N3, H3, N4, H4, N5, H5. reflexivity.
Qed.

Lemma toString_six_digits n :
  100000 <= n <= 999999 -> six_digits (toString n) = true.
Proof.
  intros Hn. unfold toString.
  assert ((n <? 0) = false) as -> by (apply Z.ltb_ge; lia).
  rewrite decimal_go_six; [| | exact Hn].
  - unfold six_digits, of_chars, chars. simpl String.length.
    rewrite list_ascii_of_string_of_list_ascii.
    cbn [forallb Nat.eqb andb].
    rewrite !digit_char_is_digit; [reflexivity | ..];
      apply Z.mod_pos_bound; lia.
  - assert (16 <= Z.log2 n) by (apply Z.log2_le_pow2; lia). lia.
Qed.

Lemma minted_code_six_digits e : six_digits (minted_code e) = true.
Proof.
  apply toString_six_digits, code_number_range, random53_range.
Qed.

(** X3: every code issuance mints has the format redemption asks for. *)
Theorem minted_code_is_accepted e :
  six_digits (minted_code e) = true
  /\ negb (truthy (minted_code e)) || negb (six_digits (minted_code e)) = false.
Proof.
  pose proof (minted_code_six_digits e) as H.
  split; [exact H |].
  rewrite (truthy_of_six_digits _ H), H. reflexivity.
Qed.

(** ** Every run of issuance *)

Local Arguments Nat.leb : simpl never.

Lemma mint_run cfg e w tid email now :
  exec e (mint cfg tid email now) w
  = if fails e AtResetUpsert
    then (reply 500 (commonHeaders cfg) false "Could not generate reset token.",
          w, [EvResetUpsert "reset" (minted_code e) false])
    else (reset_sent_200 cfg,
          snd (sendEmail e
                 (snd (upsertToken e w ("reset", minted_code e)
                         {| f_therapistId := tid; f_email := email;
                            f_createdAt := now; f_expiresAt := now + 15 * 60000;
                            f_used := false |}))
                 (resetEmail cfg email (minted_code e))),
          [EvResetUpsert "reset" (minted_code e) true;
           EvEmail (resetEmail cfg email (minted_code e))
             (negb (fails e AtEmail))]).
Proof.
  unfold mint, minted_code. simpl. unfold upsertToken.
  destruct (fails e AtResetUpsert); [reflexivity |].
  simpl. unfold sendEmail. destruct (fails e AtEmail); reflexivity.
Qed.

Opaque mint.

Lemma sendEmail_tables e w msg :
  resetrequests (snd (sendEmail e w msg)) = resetrequests w
  /\ prospects (snd (sendEmail e w msg)) = prospects w.
Proof. unfold sendEmail. destruct (fails e AtEmail); split; reflexivity. Qed.

(** The world a successful minting leaves: the token row written, every
    other row untouched. *)
Lemma minted_world_lookup e w1 msg k f :
  fails e AtResetUpsert = false ->
  resetrequests (snd (sendEmail e (snd (upsertToken e w1 k f)) msg))
  = <[k := {| t_therapistId := f_therapistId f; t_email := f_email f;
              t_createdAt := f_createdAt f; t_expiresAt := f_expiresAt f;
              t_used := f_used f; t_etag := next_etag w1 |}]> (resetrequests w1).
Proof.
  intros Hu. rewrite (proj1 (sendEmail_tables _ _ _)).
  unfold upsertToken. rewrite Hu. reflexivity.
Qed.

Lemma issuance_no_user cfg e w p :
  isValidEmail (normalize (p_email p)) = true ->
  fails e AtProspectsGet = true
  \/ prospects w !! (normalize (p_email p), normalize (p_email p)) = None ->
  exec e (requestpasswordreset cfg (post p)) w
  = (account_not_found_200 cfg, w,
     [EvProspectsGet (normalize (p_email p)) (normalize (p_email p)) false]).
Proof.
  intros He H. unfold requestpasswordreset, post. simpl.
  rewrite He. simpl. unfold getEntity.
  destruct H as [-> | H]; [reflexivity |].
  destruct (fails e AtProspectsGet); [reflexivity |].
  rewrite H. reflexivity.
Qed.

(** Once the user row is found, the enumeration of the owner's tokens
    throws, the catch takes over, and the handler mints: whatever the table
    holds, no row is counted and none is deleted. *)
Lemma issuance_run cfg e w p user :
  let email := normalize (p_email p) in
  let tid := u_therapistId user in
  isValidEmail email = true ->
  fails e AtProspectsGet = false ->
  prospects w !! (email, email) = Some user ->
  exec e (requestpasswordreset cfg (post p)) w
  = after [EvProspectsGet email email true; EvResetQuery "reset" tid false]
      (exec e (mint cfg tid email (clock e)) w).
Proof.
  intros email tid He Hf Hu. subst email tid.
  unfold requestpasswordreset, post. simpl. rewrite He. simpl.
  unfold getEntity. rewrite Hf, Hu. simpl.
  destruct (exec e (mint _ _ _ _) w) as [[r w'] tr]. reflexivity.
Qed.

(** The five ways a run of issuance goes. *)
Lemma issuance_outcomes cfg e w req :
  (method req = OPTIONS
   /\ exec e (requestpasswordreset cfg req) w = (handleCorsOptions cfg None, w, []))
  \/ (method req = POST /\ json req = None
      /\ exec e (requestpasswordreset cfg req) w
         = (reply 400 (commonHeaders cfg) false "Invalid request format.", w, []))
  \/ (exists p,
        req = post p /\ isValidEmail (normalize (p_email p)) = false
        /\ exec e (requestpasswordreset cfg req) w
           = (reply 400 (commonHeaders cfg) false "A valid email is required.",
              w, []))
  \/ (exists p,
        req = post p /\ isValidEmail (normalize (p_email p)) = true
        /\ (fails e AtProspectsGet = true
            \/ prospects w !! (normalize (p_email p), normalize (p_email p)) = None)
        /\ exec e (requestpasswordreset cfg req) w
           = (account_not_found_200 cfg, w,
              [EvProspectsGet (normalize (p_email p)) (normalize (p_email p)) false]))
  \/ (exists p user,
        req = post p /\ isValidEmail (normalize (p_email p)) = true
        /\ fails e AtProspectsGet = false
        /\ prospects w !! (normalize (p_email p), normalize (p_email p)) = Some user
        /\ exec e (requestpasswordreset cfg req) w
           = after [EvProspectsGet (normalize (p_email p)) (normalize (p_email p)) true;
                    EvResetQuery "reset" (u_therapistId user) false]
               (exec e (mint cfg (u_therapistId user) (normalize (p_email p))
                          (clock e)) w)).
Proof.
  destruct req as [[|] [p |]].
  2: right; left; repeat split; reflexivity.
  2,3: left; split; reflexivity.
  right; right. fold (post p).
  destruct (isValidEmail (normalize (p_email p))) eqn:He.
  2:{ left. exists p. split; [reflexivity |]. split; [exact He |].
      unfold requestpasswordreset. simpl. rewrite He. reflexivity. }
  right.
  destruct (fails e AtProspectsGet) eqn:Hf.
  { left. exists p. split; [reflexivity |]. split; [exact He |].
    split; [left; reflexivity |]. apply issuance_no_user; auto. }
  destruct (prospects w !! (normalize (p_email p), normalize (p_email p)))
    as [user |] eqn:Hu.
  2:{ left. exists p. split; [reflexivity |]. split; [exact He |].
      split; [right; exact Hu |]. apply issuance_no_user; auto. }
  right. exists p, user.
  split; [reflexivity |]. split; [exact He |]. split; [reflexivity |].
  split; [exact Hu |]. apply issuance_run; assumption.
Qed.
(** C7: an issuance call whose token was stored gets the uniform success
    response, status 200 with success true, and the e-mail was attempted;
    whether that attempt resolved (it does exactly when the sender does not
    fail) shows in the trace only, never in the response. *)
Theorem requestpasswordreset_email_failure_invisible cfg e w req pk rk :
  In (EvResetUpsert pk rk true)
    (trace_of (exec e (requestpasswordreset cfg req) w)) ->
  response_of (exec e (requestpasswordreset cfg req) w)
  = reply 200 (commonHeaders cfg) true
      "If your account exists, a reset link has been sent to your email."
  /\ exists msg,
       In (EvEmail msg (negb (fails e AtEmail)))
         (trace_of (exec e (requestpasswordreset cfg req) w)).
Proof.
  destruct (issuance_outcomes cfg e w req)
    as [[_ Hr] | [(_ & _ & Hr) | [(p & _ & _ & Hr) | [(p & _ & _ & _ & Hr)
       | (p & user & _ & _ & _ & _ & Hr)]]]];
    rewrite Hr; unfold trace_of, response_of; simpl;
    try (intros []; fail); try (intros [[=] | []]; fail).
  rewrite mint_run. destruct (fails e AtResetUpsert); simpl.
  - intros [[=] | [[=] | [[=] | []]]].
  - intros _. split; [reflexivity |].
    eexists. right. right. right. left. reflexivity.
Qed.

Lemma requestpasswordreset_email_failure_invisible_witness :
  response_of
    (exec (Sample.env_failing AtEmail)
       (requestpasswordreset Sample.cfg (Sample.issue "alice@example.com"))
       Sample.w_empty)
  = reply 200 (commonHeaders Sample.cfg) true
      "If your account exists, a reset link has been sent to your email."
  /\ exists msg,
       In (EvEmail msg (negb (fails (Sample.env_failing AtEmail) AtEmail)))
         (trace_of
            (exec (Sample.env_failing AtEmail)
               (requestpasswordreset Sample.cfg (Sample.issue "alice@example.com"))
               Sample.w_empty)).
Proof.
  apply (requestpasswordreset_email_failure_invisible Sample.cfg
           (Sample.env_failing AtEmail) Sample.w_empty
           (Sample.issue "alice@example.com") "reset" "100000").
  vm_compute. tauto.
Defined.

(** The notification failed and left nothing in the outbox, yet the
    response is the one of a delivered notification. *)
Example email_failure_same_response :
  response_of
    (exec (Sample.env_failing AtEmail)
       (requestpasswordreset Sample.cfg (Sample.issue "alice@example.com"))
       Sample.w_empty)
  = response_of
      (exec Sample.env
         (requestpasswordreset Sample.cfg (Sample.issue "alice@example.com"))
         Sample.w_empty)
  /\ outbox
       (world_of
          (exec (Sample.env_failing AtEmail)
             (requestpasswordreset Sample.cfg (Sample.issue "alice@example.com"))
             Sample.w_empty)) = [].
Proof. split; vm_compute; reflexivity. Qed.

(** ** Issuance: the rate limit *)

Lemma active_tokens_intro w tid now k t :
  resetrequests w !! k = Some t -> fst k = "reset" ->
  t_therapistId t = tid -> is_active now t = true ->
  In (k, t) (active_tokens w tid now).
Proof.
  intros Hk Hpk Htid Hact. unfold active_tokens, owned_tokens.
  rewrite !filter_In. simpl. split; [split |].
  - apply list_elem_of_In, elem_of_map_to_list. exact Hk.
  - unfold token_selected. simpl. rewrite Hpk, Htid, !String.eqb_refl.
    reflexivity.
  - exact Hact.
Qed.

Lemma active_tokens_elim w tid now k t :
  In (k, t) (active_tokens w tid now) ->
  resetrequests w !! k = Some t /\ fst k = "reset"
  /\ t_therapistId t = tid /\ is_active now t = true.
Proof.
  unfold active_tokens, owned_tokens. rewrite !filter_In. simpl.
  intros [[Hin Hsel] Hact]. unfold token_selected in Hsel. simpl in Hsel.
  apply andb_true_iff in Hsel as [Hpk Htid].
  apply String.eqb_eq in Hpk. apply String.eqb_eq in Htid.
  apply list_elem_of_In, elem_of_map_to_list in Hin. auto.
Qed.

(** C3: the rate limit is never enforced. The enumeration of the owner's
    tokens throws on every run, the catch that follows swallows the error,
    and the handler goes on to mint. For an existing user who owns two
    active token records or more, an issuance call whose token write
    resolves does not answer 429: it answers the 200 success reply, stores
    a new record under the minted code, attempts the e-mail, and every
    record that was active stays active. *)
Theorem requestpasswordreset_never_rate_limits cfg e w p user :
  let email := normalize (p_email p) in
  let tid := u_therapistId user in
  let run := exec e (requestpasswordreset cfg (post p)) w in
  isValidEmail email = true ->
  fails e AtProspectsGet = false ->
  prospects w !! (email, email) = Some user ->
  (2 <= length (active_tokens w tid (clock e)))%nat ->
  fails e AtResetUpsert = false ->
  response_of run = reset_sent_200 cfg
  /\ response_of run <> rate_limited_429 cfg
  /\ trace_of run
     = [EvProspectsGet email email true;
        EvResetQuery "reset" tid false;
        EvResetUpsert "reset" (minted_code e) true;
        EvEmail (resetEmail cfg email (minted_code e)) (negb (fails e AtEmail))]
  /\ (exists t,
        resetrequests (world_of run) !! ("reset", minted_code e) = Some t
        /\ t_therapistId t = tid
        /\ is_active (clock e) t = true)
  /\ forall k t,
       In (k, t) (active_tokens w tid (clock e)) ->
       k <> ("reset", minted_code e) ->
       In (k, t) (active_tokens (world_of run) tid (clock e)).
Proof.
  intros email tid run He Hf Hu _ Hup. subst run.
  rewrite (issuance_run cfg e w p user He Hf Hu), mint_run, Hup.
  fold email tid. unfold response_of, trace_of, world_of. simpl.
  rewrite minted_world_lookup by exact Hup.
  split; [reflexivity |]. split; [discriminate |]. split; [reflexivity |].
  split.
  - eexists. split; [apply lookup_insert_eq |]. split; [reflexivity |].
    unfold is_active. simpl. apply Z.ltb_lt. lia.
  - intros k t Hin Hne.
    apply active_tokens_elim in Hin as (Hk & Hpk & Htid & Hact).
    apply active_tokens_intro; try assumption.
    rewrite minted_world_lookup by exact Hup.
    rewrite lookup_insert_ne by congruence. exact Hk.
Qed.

(** Alice owns two active tokens and asks for a third: she gets it. *)
Lemma requestpasswordreset_never_rate_limits_witness :
  let run :=
    exec Sample.env
      (requestpasswordreset Sample.cfg (Sample.issue "alice@example.com"))
      Sample.w_alice_two in
  length (active_tokens Sample.w_alice_two "T1" 1000) = 2%nat
  /\ response_of run = reset_sent_200 Sample.cfg
  /\ status (response_of run) = 200
  /\ exists t,
       resetrequests (world_of run) !! ("reset", "100000") = Some t
       /\ is_active 1000 t = true.
Proof.
  intros run. split; [reflexivity |].
  destruct (requestpasswordreset_never_rate_limits Sample.cfg Sample.env
              Sample.w_alice_two
              {| p_email := Some "alice@example.com"; p_code := None;
                 p_newPassword := None |}
              Sample.alice eq_refl eq_refl eq_refl)
    as (Hresp & _ & _ & (t & Ht & _ & Hact) & _).
  - vm_compute. lia.
  - reflexivity.
  - split; [exact Hresp |]. split; [exact (f_equal status Hresp) |].
    exists t. split; [exact Ht | exact Hact].
Defined.

(** ** Issuance: the minted record *)

(** C4, as the code has it: an issuance call with a valid email, for a user
    whose row is found, who owns fewer than two active tokens, and whose
    token write resolves, writes exactly one token record, under the minted
    code: a string of six digits, the decimal form of a number between
    100000 and 999999. The record is unused, was created at the time of the
    call and expires exactly 15 minutes later. It is a new row when the code
    was free and replaces the row that held the code otherwise; every other
    row is as it was or has been deleted by the clean-up. *)
Theorem requestpasswordreset_mints_one_record cfg e w p user :
  let email := normalize (p_email p) in
  let code := minted_code e in
  isValidEmail email = true ->
  fails e AtProspectsGet = false ->
  prospects w !! (email, email) = Some user ->
  (length (active_tokens w (u_therapistId user) (clock e)) < 2)%nat ->
  fails e AtResetUpsert = false ->
  exists w' tr t,
    exec e (requestpasswordreset cfg (post p)) w
    = (reply 200 (commonHeaders cfg) true
         "If your account exists, a reset link has been sent to your email.",
       w', tr)
    /\ code = toString (code_number (random53 e))
    /\ 100000 <= code_number (random53 e) <= 999999
    /\ six_digits code = true
    /\ resetrequests w' !! ("reset", code) = Some t
    /\ t_used t = false
    /\ t_createdAt t = clock e
    /\ t_expiresAt t = t_createdAt t + 15 * 60 * 1000
    /\ t_therapistId t = u_therapistId user
    /\ t_email t = email
    /\ (forall k, k <> ("reset", code) ->
          resetrequests w' !! k = None
          \/ resetrequests w' !! k = resetrequests w !! k)
    /\ length (List.filter is_upsert_event tr) = 1%nat.
Proof.
  intros email code He Hf Hu _ Hup. subst email code.
  rewrite (issuance_run cfg e w p user He Hf Hu), mint_run, Hup. simpl.
  eexists _, _, _. split; [reflexivity |].
  rewrite minted_world_lookup by exact Hup. simpl.
  split; [reflexivity |].
  split; [apply code_number_range, random53_range |].
  split; [apply minted_code_six_digits |].
  split; [apply lookup_insert_eq |].
  repeat (split; [reflexivity || lia |]).
  split; [| reflexivity].
  intros k Hne. right. apply lookup_insert_ne. congruence.
Qed.

Lemma requestpasswordreset_mints_one_record_witness :
  exists w' tr t,
    exec Sample.env
      (requestpasswordreset Sample.cfg (Sample.issue "Alice@Example.com "))
      Sample.w_alice_one
    = (reply 200 (commonHeaders Sample.cfg) true
         "If your account exists, a reset link has been sent to your email.",
       w', tr)
    /\ resetrequests w' !! ("reset", "100000") = Some t
    /\ t_used t = false
    /\ t_createdAt t = 1000
    /\ t_expiresAt t = 901000
    /\ resetrequests Sample.w_alice_one !! ("reset", "100000") = None.
Proof.
  destruct (requestpasswordreset_mints_one_record Sample.cfg Sample.env
              Sample.w_alice_one
              {| p_email := Some "Alice@Example.com "; p_code := None;
                 p_newPassword := None |}
              Sample.alice eq_refl eq_refl eq_refl)
    as (w' & tr & t & Hrun & _ & _ & _ & Ht & Hused & Hc & Hexp & _).
  - vm_compute. lia.
  - reflexivity.
  - exists w', tr, t. repeat split; try assumption.
    rewrite Hexp, Hc. reflexivity.
Defined.

(** C4 as stated fails, in two ways. Alice owns no token and asks for one:
    when the minted code 100000 is the key of Bob's token, no record is
    created, Bob's row is replaced by hers; and when the write of the token
    fails, the call answers 500 and the table stays empty. *)
Lemma issuance_without_new_record :
  (length (active_tokens Sample.w_bob_active "T1" 1000) = 0%nat
   /\ status
        (response_of
           (exec Sample.env
              (requestpasswordreset Sample.cfg (Sample.issue "alice@example.com"))
              Sample.w_bob_active)) = 200
   /\ map fst (map_to_list (resetrequests Sample.w_bob_active))
      = [("reset", "100000")]
   /\ map_to_list
        (resetrequests
           (world_of
              (exec Sample.env
                 (requestpasswordreset Sample.cfg (Sample.issue "alice@example.com"))
                 Sample.w_bob_active)))
      = [(("reset", "100000"),
          {| t_therapistId := "T1"; t_email := "alice@example.com";
             t_createdAt := 1000; t_expiresAt := 901000;
             t_used := false; t_etag := 10 |})])
  /\ (status
        (response_of
           (exec (Sample.env_failing AtResetUpsert)
              (requestpasswordreset Sample.cfg (Sample.issue "alice@example.com"))
              Sample.w_empty)) = 500
      /\ map_to_list
           (resetrequests
              (world_of
                 (exec (Sample.env_failing AtResetUpsert)
                    (requestpasswordreset Sample.cfg (Sample.issue "alice@example.com"))
                    Sample.w_empty))) = []).
Proof. repeat split; vm_compute; reflexivity. Qed.

(** ** Issuance: what it writes *)

(** An issuance call leaves every token row as it was, the row under the
    code it mints apart. *)
Lemma requestpasswordreset_token_rows cfg e w req k :
  k <> ("reset", minted_code e) ->
  resetrequests (world_of (exec e (requestpasswordreset cfg req) w)) !! k
  = resetrequests w !! k.
Proof.
  intros Hne.
  destruct (issuance_outcomes cfg e w req)
    as [[_ Hr] | [(_ & _ & Hr) | [(p & _ & _ & Hr) | [(p & _ & _ & _ & Hr)
       | (p & user & _ & _ & _ & _ & Hr)]]]];
    rewrite Hr; unfold world_of; simpl; try reflexivity.
  rewrite mint_run. destruct (fails e AtResetUpsert) eqn:Hup; simpl;
    [reflexivity |].
  rewrite minted_world_lookup by exact Hup.
  apply lookup_insert_ne. congruence.
Qed.

Lemma requestpasswordreset_prospects cfg e w req :
  prospects (world_of (exec e (requestpasswordreset cfg req) w)) = prospects w.
Proof.
  destruct (issuance_outcomes cfg e w req)
    as [[_ Hr] | [(_ & _ & Hr) | [(p & _ & _ & Hr) | [(p & _ & _ & _ & Hr)
       | (p & user & _ & _ & _ & _ & Hr)]]]];
    rewrite Hr; unfold world_of; simpl; try reflexivity.
  rewrite mint_run. destruct (fails e AtResetUpsert) eqn:Hup; simpl;
    [reflexivity |].
  rewrite (proj2 (sendEmail_tables _ _ _)). unfold upsertToken.
  rewrite Hup. reflexivity.
Qed.

(** X9: issuance never writes the table of users, and the only token row
    it creates, changes or removes is the row of the code it mints: no used
    or expired row is cleaned up, since the enumeration that would find
    them throws on every run. *)
Theorem requestpasswordreset_frame cfg e w req :
  let run := exec e (requestpasswordreset cfg req) w in
  prospects (world_of run) = prospects w
  /\ (forall k,
        k <> ("reset", minted_code e) ->
        resetrequests (world_of run) !! k = resetrequests w !! k)
  /\ ~ (exists ks ok, In (EvResetTransaction ks ok) (trace_of run))
  /\ response_of run <> rate_limited_429 cfg.
Proof.
  intros run. subst run.
  destruct (issuance_outcomes cfg e w req)
    as [[_ Hr] | [(_ & _ & Hr) | [(p & _ & _ & Hr) | [(p & _ & _ & _ & Hr)
       | (p & user & _ & _ & _ & _ & Hr)]]]];
    rewrite Hr; unfold world_of, trace_of, response_of; simpl.
  1-3: split; [reflexivity |]; split; [reflexivity |];
       split; [intros (ks & ok & []) | discriminate].
  - split; [reflexivity |]. split; [reflexivity |].
    split; [intros (ks & ok & [[=] | []]) | discriminate].
  - rewrite mint_run. destruct (fails e AtResetUpsert) eqn:Hup; simpl.
    + split; [reflexivity |]. split; [reflexivity |].
      split; [intros (ks & ok & [[=] | [[=] | [[=] | []]]]) | discriminate].
    + split.
      { rewrite (proj2 (sendEmail_tables _ _ _)). unfold upsertToken.
        rewrite Hup. reflexivity. }
      split.
      { intros k Hne. rewrite minted_world_lookup by exact Hup.
        apply lookup_insert_ne. congruence. }
      split; [| discriminate].
      intros (ks & ok & [[=] | [[=] | [[=] | [[=] | []]]]]).
Qed.

(** X10: an e-mail of issuance is sent only after the token record was
    stored and the success reply decided: it goes to the normalized address,
    carries the minted code, and that code is the key of a stored, unused
    record of that address expiring 15 minutes after the call; the outbox
    grows by exactly that message when the send resolves and not at all when
    it fails. *)
Theorem requestpasswordreset_email_matches_record cfg e w req msg ok :
  In (EvEmail msg ok) (trace_of (exec e (requestpasswordreset cfg req) w)) ->
  let w' := world_of (exec e (requestpasswordreset cfg req) w) in
  exists p t,
    json req = Some p
    /\ msg = resetEmail cfg (normalize (p_email p)) (minted_code e)
    /\ ok = negb (fails e AtEmail)
    /\ response_of (exec e (requestpasswordreset cfg req) w) = reset_sent_200 cfg
    /\ resetrequests w' !! ("reset", m_code msg) = Some t
    /\ t_email t = m_to msg
    /\ t_used t = false
    /\ t_expiresAt t = clock e + 15 * 60000
    /\ outbox w' = if ok then (outbox w ++ [msg])%list else outbox w.
Proof.
  intros Hin w'. subst w'. revert Hin.
  destruct (issuance_outcomes cfg e w req)
    as [[_ Hr] | [(_ & _ & Hr) | [(p & _ & _ & Hr) | [(p & _ & _ & _ & Hr)
       | (p & user & -> & _ & _ & Hu & Hr)]]]];
    rewrite Hr; unfold trace_of, world_of, response_of; simpl;
    try (intros []; fail); try (intros [[=] | []]; fail).
  rewrite mint_run. destruct (fails e AtResetUpsert) eqn:Hup; simpl.
  { intros [[=] | [[=] | [[=] | []]]]. }
  intros [[=] | [[=] | [[=] | [Hmsg | []]]]].
  injection Hmsg as <- <-.
  exists p. eexists. split; [reflexivity |]. split; [reflexivity |].
  split; [reflexivity |]. split; [reflexivity |].
  rewrite minted_world_lookup by exact Hup. simpl.
  split; [apply lookup_insert_eq |]. simpl.
  split; [reflexivity |]. split; [reflexivity |]. split; [reflexivity |].
  unfold sendEmail, upsertToken. rewrite Hup.
  destruct (fails e AtEmail); reflexivity.
Qed.

Lemma requestpasswordreset_email_matches_record_witness :
  exists t,
    resetrequests
      (world_of
         (exec Sample.env
            (requestpasswordreset Sample.cfg (Sample.issue "Alice@Example.com "))
            Sample.w_empty)) !! ("reset", "100000") = Some t
    /\ t_email t = "alice@example.com"
    /\ outbox
         (world_of
            (exec Sample.env
               (requestpasswordreset Sample.cfg (Sample.issue "Alice@Example.com "))
               Sample.w_empty))
       = [resetEmail Sample.cfg "alice@example.com" "100000"].
Proof.
  destruct (requestpasswordreset_email_matches_record Sample.cfg Sample.env
              Sample.w_empty (Sample.issue "Alice@Example.com ")
              (resetEmail Sample.cfg "alice@example.com" "100000") true)
    as (p & t & _ & _ & _ & _ & Ht & Hmail & _ & _ & Hout).
  - vm_compute. do 3 right. left. reflexivity.
  - exists t. split; [exact Ht |]. split; [exact Hmail | exact Hout].
Defined.

(** X11: the success reply of issuance is given only to a POST whose address
    has the right shape and a user row, when the token write resolved; the
    record of the minted code is then in the table, unused, owned by that
    user, created at the time of the call and expiring 15 minutes later. *)
Theorem requestpasswordreset_success_sound cfg e w req :
  response_of (exec e (requestpasswordreset cfg req) w) = reset_sent_200 cfg ->
  let w' := world_of (exec e (requestpasswordreset cfg req) w) in
  exists p user t,
    req = post p
    /\ isValidEmail (normalize (p_email p)) = true
    /\ prospects w !! (normalize (p_email p), normalize (p_email p)) = Some user
    /\ In (EvResetUpsert "reset" (minted_code e) true)
         (trace_of (exec e (requestpasswordreset cfg req) w))
    /\ resetrequests w' !! ("reset", minted_code e) = Some t
    /\ t_therapistId t = u_therapistId user
    /\ t_email t = normalize (p_email p)
    /\ t_used t = false
    /\ t_createdAt t = clock e
    /\ t_expiresAt t = clock e + 15 * 60000.
Proof.
  intros Hresp w'. subst w'. revert Hresp.
  destruct (issuance_outcomes cfg e w req)
    as [[_ Hr] | [(_ & _ & Hr) | [(p & _ & _ & Hr) | [(p & _ & _ & _ & Hr)
       | (p & user & -> & He & _ & Hu & Hr)]]]];
    rewrite Hr; unfold trace_of, world_of, response_of; simpl;
    try discriminate.
  rewrite mint_run. destruct (fails e AtResetUpsert) eqn:Hup; simpl;
    [discriminate |].
  intros _. exists p, user. eexists.
  split; [reflexivity |]. split; [exact He |]. split; [exact Hu |].
  split; [right; right; left; reflexivity |].
  rewrite minted_world_lookup by exact Hup.
  split; [apply lookup_insert_eq |]. simpl. repeat split; reflexivity.
Qed.

Lemma requestpasswordreset_success_sound_witness :
  exists p user t,
    Sample.issue "alice@example.com" = post p
    /\ prospects Sample.w_alice_one !! (normalize (p_email p), normalize (p_email p))
       = Some user
    /\ resetrequests
         (world_of
            (exec Sample.env
               (requestpasswordreset Sample.cfg (Sample.issue "alice@example.com"))
               Sample.w_alice_one)) !! ("reset", minted_code Sample.env) = Some t
    /\ t_therapistId t = u_therapistId user
    /\ t_used t = false
    /\ t_expiresAt t = 901000.
Proof.
  destruct (requestpasswordreset_success_sound Sample.cfg Sample.env
              Sample.w_alice_one (Sample.issue "alice@example.com") eq_refl)
    as (p & user & t & Hreq & _ & Hu & _ & Ht & Htid & _ & Hused & _ & Hexp).
  exists p, user, t. repeat (split; [assumption |]). exact Hexp.
Defined.

(** X12: issuance makes no remote call exactly on a pre-flight request,
    on a body that does not parse and on an address of the wrong shape; the
    world is then as it was. *)
Theorem requestpasswordreset_no_call_iff cfg e w req :
  (trace_of (exec e (requestpasswordreset cfg req) w) = []
   <-> (method req = OPTIONS
        \/ json req = None
        \/ exists p, json req = Some p
                     /\ isValidEmail (normalize (p_email p)) = false))
  /\ (trace_of (exec e (requestpasswordreset cfg req) w) = [] ->
      world_of (exec e (requestpasswordreset cfg req) w) = w).
Proof.
  destruct (issuance_outcomes cfg e w req)
    as [[Hm Hr] | [(Hm & Hj & Hr) | [(p & -> & He & Hr) | [(p & -> & He & _ & Hr)
       | (p & user & -> & He & _ & Hu & Hr)]]]];
    rewrite Hr; unfold trace_of, world_of; simpl.
  - split; [| reflexivity]. split; [intros _; left; exact Hm | reflexivity].
  - split; [| reflexivity]. split; [intros _; right; left; exact Hj | reflexivity].
  - split; [| reflexivity].
    split; [intros _; right; right; exists p; auto | reflexivity].
  - split; [| discriminate]. split; [discriminate |].
    intros [[=] | [[=] | (p0 & [= <-] & He0)]]. congruence.
  - destruct (exec e (mint _ _ _ _) w) as [[r w'] tr]. simpl.
    split; [| discriminate]. split; [discriminate |].
    intros [[=] | [[=] | (p0 & [= <-] & He0)]]. congruence.
Qed.

(** X13: issuance answers with one of seven responses and no other: the
    pre-flight reply, 400 for a body that does not parse, 400 for a bad
    address, 200 account not found, 429, 500 when the token write fails, and
    the 200 success reply. *)
Theorem requestpasswordreset_responses cfg e w req :
  In (response_of (exec e (requestpasswordreset cfg req) w))
    [ handleCorsOptions cfg None;
      reply 400 (commonHeaders cfg) false "Invalid request format.";
      reply 400 (commonHeaders cfg) false "A valid email is required.";
      account_not_found_200 cfg;
      rate_limited_429 cfg;
      reply 500 (commonHeaders cfg) false "Could not generate reset token.";
      reset_sent_200 cfg ].
Proof.
  destruct (issuance_outcomes cfg e w req)
    as [[_ Hr] | [(_ & _ & Hr) | [(p & _ & _ & Hr) | [(p & _ & _ & _ & Hr)
       | (p & user & _ & _ & _ & _ & Hr)]]]];
    rewrite Hr; unfold response_of; simpl; auto 10.
  rewrite mint_run. destruct (fails e AtResetUpsert); simpl; auto 10.
Qed.

(** ** Every run of redemption *)

(** The runs of redemption that make no call. *)
Lemma redemption_no_call cfg e w req :
  (exists r,
     exec e (resetpassword cfg req) w = (r, w, [])
     /\ In r [ handleCorsOptions cfg None;
               reply 400 (commonHeaders cfg) false "Invalid request format.";
               reply 400 (commonHeaders cfg) false "Valid email is required.";
               reply 400 (commonHeaders cfg) false "Valid 6-digit code is required.";
               reply 400 (commonHeaders cfg) false password_policy_message ]
     /\ (method req = OPTIONS
         \/ json req = None
         \/ exists p,
              json req = Some p
              /\ (isValidEmail (normalize (p_email p)) = false
                  \/ six_digits (nullish (p_code p) EmptyString) = false
                  \/ isValidPassword (p_newPassword p) = false)))
  \/ (exists p,
        req = post p
        /\ isValidEmail (normalize (p_email p)) = true
        /\ six_digits (nullish (p_code p) EmptyString) = true
        /\ isValidPassword (p_newPassword p) = true).
Proof.
  destruct req as [[|] [p |]].
  2: left; eexists; split; [reflexivity |]; split; [simpl; auto | auto].
  2,3: left; eexists; split; [reflexivity |]; split; [simpl; auto | auto].
  fold (post p).
  destruct (isValidEmail (normalize (p_email p))) eqn:He.
  2:{ left. eexists. split; [| split; [| right; right; exists p; auto]].
      - unfold resetpassword. simpl. rewrite He, orb_true_r. reflexivity.
      - simpl; auto. }
  destruct (six_digits (nullish (p_code p) EmptyString)) eqn:Hc.
  2:{ left. eexists. split; [| split; [| right; right; exists p; auto]].
      - unfold resetpassword. simpl.
        rewrite He, (truthy_of_valid_email _ He), Hc, orb_true_r. reflexivity.
      - simpl; auto. }
  destruct (isValidPassword (p_newPassword p)) eqn:Hp.
  2:{ left. eexists. split; [| split; [| right; right; exists p; auto]].
      - unfold resetpassword. simpl.
        rewrite He, (truthy_of_valid_email _ He), Hc,
          (truthy_of_six_digits _ Hc), Hp. reflexivity.
      - simpl; auto 10. }
  right. exists p. auto.
Qed.

Lemma updateToken_any e w k t :
  resetrequests w !! k = Some t ->
  updateToken e w k true AnyETag
  = if fails e AtResetUpdate then (Rejected, w)
    else (Resolved tt,
          with_resetrequests w
            (<[k := {| t_therapistId := t_therapistId t; t_email := t_email t;
                       t_createdAt := t_createdAt t;
                       t_expiresAt := t_expiresAt t;
                       t_used := true; t_etag := next_etag w |}]>
               (resetrequests w))).
Proof. intros Ht. unfold updateToken. rewrite Ht. reflexivity. Qed.

(** The runs of redemption on a payload that passes the three checks.
    Once the token row is marked, the scan for the owner throws, the catch
    takes over, and the handler answers that the account was not found. *)
Lemma redemption_run cfg e w p :
  let email := normalize (p_email p) in
  let code := nullish (p_code p) EmptyString in
  let run := exec e (resetpassword cfg (post p)) w in
  isValidEmail email = true ->
  six_digits code = true ->
  isValidPassword (p_newPassword p) = true ->
  (getEntity e AtResetGet (resetrequests w) ("reset", code) = Rejected
   /\ run = (reply 400 (commonHeaders cfg) false "Invalid or expired code.", w,
             [EvResetGet "reset" code false]))
  \/ exists t,
       fails e AtResetGet = false
       /\ resetrequests w !! ("reset", code) = Some t
       /\ ((normalize (Some (t_email t)) <> email
            /\ run = (reply 400 (commonHeaders cfg) false "Invalid code or email.",
                      w, [EvResetGet "reset" code true]))
           \/ (normalize (Some (t_email t)) = email
               /\ ((t_expiresAt t <=? clock e) || t_used t = true)
               /\ run = (refused_400 cfg, snd (deleteToken e w ("reset", code)),
                         [EvResetGet "reset" code true;
                          EvResetDelete "reset" code
                            (resolved (fst (deleteToken e w ("reset", code))))]))
           \/ (normalize (Some (t_email t)) = email
               /\ clock e < t_expiresAt t /\ t_used t = false
               /\ ((fails e AtResetUpdate = true
                    /\ run = (reply 500 (commonHeaders cfg) false "Server error.",
                              w,
                              [EvResetGet "reset" code true;
                               EvResetUpdate "reset" code true false]))
                   \/ (fails e AtResetUpdate = false
                       /\ run = (account_not_found_400 cfg,
                                 snd (updateToken e w ("reset", code) true AnyETag),
                                 [EvResetGet "reset" code true;
                                  EvResetUpdate "reset" code true true;
                                  EvProspectsQuery (t_therapistId t) false]))))).
Proof.
  intros email code run He Hc Hp. subst run.
  destruct (resetpassword_checks_pass _ _ _ He Hc Hp) as (Ce & Cc & Cp).
  subst email code. unfold resetpassword, post. simpl.
  rewrite Ce, Cc, Cp. simpl. unfold getEntity.
  destruct (fails e AtResetGet) eqn:Hg; [left; split; reflexivity |].
  destruct (resetrequests w !! ("reset", nullish (p_code p) EmptyString))
    as [t |] eqn:Ht; [| left; split; reflexivity].
  right. exists t. split; [reflexivity |]. split; [reflexivity |]. simpl.
  destruct (String.eqb_spec (normalize (Some (t_email t))) (normalize (p_email p)))
    as [Heq | Hne]; simpl; [| left; split; [exact Hne | reflexivity]].
  right.
  destruct ((t_expiresAt t <=? clock e) || t_used t) eqn:Hdead; simpl.
  { left. split; [exact Heq |]. split; [reflexivity |].
    destruct (deleteToken e w _) as [o w']. reflexivity. }
  right. apply orb_false_iff in Hdead as [Hexp Hused]. apply Z.leb_gt in Hexp.
  split; [exact Heq |]. split; [exact Hexp |]. split; [exact Hused |].
  rewrite (updateToken_any _ _ _ _ Ht).
  destruct (fails e AtResetUpdate) eqn:Hm; simpl; [left; split; reflexivity |].
  right. split; reflexivity.
Qed.

Lemma updateToken_lookup e w k0 used c k :
  resetrequests (snd (updateToken e w k0 used c)) !! k = resetrequests w !! k
  \/ (k = k0
      /\ exists t t',
           resetrequests w !! k = Some t
           /\ resetrequests (snd (updateToken e w k0 used c)) !! k = Some t'
           /\ t_used t' = used).
Proof.
  unfold updateToken.
  destruct (fails e AtResetUpdate); [left; reflexivity |].
  destruct (resetrequests w !! k0) as [t |] eqn:Ht; [| left; reflexivity].
  destruct (etag_matches c (t_etag t)); [| left; reflexivity].
  simpl. destruct (decide (k0 = k)) as [<- | Hne].
  - right. split; [reflexivity |]. eexists t, _.
    split; [exact Ht |]. split; [apply lookup_insert_eq | reflexivity].
  - left. apply lookup_insert_ne. exact Hne.
Qed.

Lemma updateToken_frame e w k used c :
  prospects (snd (updateToken e w k used c)) = prospects w
  /\ outbox (snd (updateToken e w k used c)) = outbox w.
Proof.
  unfold updateToken.
  destruct (fails e AtResetUpdate); [split; reflexivity |].
  destruct (resetrequests w !! k); [| split; reflexivity].
  destruct (etag_matches c _); split; reflexivity.
Qed.

Lemma deleteToken_outbox e w k : outbox (snd (deleteToken e w k)) = outbox w.
Proof.
  unfold deleteToken.
  destruct (fails e AtResetDelete); [reflexivity |].
  destruct (resetrequests w !! k); reflexivity.
Qed.

Lemma deleteToken_rows e w k0 :
  (forall k, resetrequests w !! k = None ->
             resetrequests (snd (deleteToken e w k0)) !! k = None)
  /\ (forall k, k <> k0 ->
                resetrequests (snd (deleteToken e w k0)) !! k
                = resetrequests w !! k).
Proof.
  unfold deleteToken.
  destruct (fails e AtResetDelete); [split; auto |].
  destruct (resetrequests w !! k0); [| split; auto]. simpl. split.
  - intros k Hk. destruct (decide (k0 = k)) as [-> | Hne].
    + apply lookup_delete_eq.
    + rewrite lookup_delete_ne by exact Hne. exact Hk.
  - intros k Hne. apply lookup_delete_ne. congruence.
Qed.

Lemma updateToken_rows e w k0 used c :
  (forall k, resetrequests w !! k = None ->
             resetrequests (snd (updateToken e w k0 used c)) !! k = None)
  /\ (forall k, k <> k0 ->
                resetrequests (snd (updateToken e w k0 used c)) !! k
                = resetrequests w !! k).
Proof.
  split; intros k Hk;
    destruct (updateToken_lookup e w k0 used c k)
      as [H | (Heq & t & t' & Ht & _)]; congruence.
Qed.

(** X15: redemption makes no remote call exactly on a pre-flight request,
    on a body that does not parse and on a payload that fails one of the
    three checks; the world is then as it was. On a payload that passes
    them at least one call is made. *)
Theorem resetpassword_no_call_iff cfg e w req :
  (trace_of (exec e (resetpassword cfg req) w) = []
   <-> (method req = OPTIONS
        \/ json req = None
        \/ exists p,
             json req = Some p
             /\ (isValidEmail (normalize (p_email p)) = false
                 \/ six_digits (nullish (p_code p) EmptyString) = false
                 \/ isValidPassword (p_newPassword p) = false)))
  /\ (trace_of (exec e (resetpassword cfg req) w) = [] ->
      world_of (exec e (resetpassword cfg req) w) = w).
Proof.
  destruct (redemption_no_call cfg e w req)
    as [(r & Hr & _ & Hwhy) | (p & -> & He & Hc & Hp)].
  { rewrite Hr. unfold trace_of, world_of. simpl.
    split; [split; [intros _; exact Hwhy | reflexivity] | reflexivity]. }
  assert (trace_of (exec e (resetpassword cfg (post p)) w) <> []) as Hne.
  { unfold trace_of.
    destruct (redemption_run cfg e w p He Hc Hp)
      as [[_ ->] | (t & _ & _ & [[_ ->] | [(_ & _ & ->)
         | (_ & _ & _ & [[_ ->] | [_ ->]])]])];
      discriminate. }
  split; [| intros H; contradiction].
  split; [intros H; contradiction |].
  intros [[=] | [[=] | (p0 & [= <-] & [H | [H | H]])]]; congruence.
Qed.

(** X16: redemption answers with one of twelve responses and no other: the
    pre-flight reply, eight 400 replies, two 500 replies and the 200 success
    reply; in particular it never answers 429. *)
Theorem resetpassword_responses cfg e w req :
  In (response_of (exec e (resetpassword cfg req) w))
    [ handleCorsOptions cfg None;
      reply 400 (commonHeaders cfg) false "Invalid request format.";
      reply 400 (commonHeaders cfg) false "Valid email is required.";
      reply 400 (commonHeaders cfg) false "Valid 6-digit code is required.";
      reply 400 (commonHeaders cfg) false password_policy_message;
      reply 400 (commonHeaders cfg) false "Invalid or expired code.";
      reply 400 (commonHeaders cfg) false "Invalid code or email.";
      reply 400 (commonHeaders cfg) false "Code has expired or already been used.";
      reply 500 (commonHeaders cfg) false "Server error.";
      reply 400 (commonHeaders cfg) false "Account not found.";
      reply 500 (commonHeaders cfg) false "Failed to update password.";
      reply 200 (commonHeaders cfg) true "Password reset successfully." ].
Proof.
  destruct (redemption_no_call cfg e w req)
    as [(r & Hr & Hin & _) | (p & -> & He & Hc & Hp)].
  { rewrite Hr. unfold response_of. simpl in *.
    destruct Hin as [<- | [<- | [<- | [<- | [<- | []]]]]]; auto 10. }
  unfold response_of.
  destruct (redemption_run cfg e w p He Hc Hp)
    as [[_ ->] | (t & _ & _ & [[_ ->] | [(_ & _ & ->)
       | (_ & _ & _ & [[_ ->] | [_ ->]])]])];
    simpl; auto 20.
Qed.

(** X17: every response of the two handlers, on every path, carries the
    headers [getCorsHeaders] builds without an override: the allowed origin
    is the configured one when it is set, the default site otherwise, and
    the four other headers are fixed. *)
Theorem responses_carry_cors_headers cfg e w req :
  headers (response_of (exec e (requestpasswordreset cfg req) w))
  = getCorsHeaders cfg None
  /\ headers (response_of (exec e (resetpassword cfg req) w))
     = getCorsHeaders cfg None
  /\ getCorsHeaders cfg None
     = [ ("Access-Control-Allow-Origin",
          match ALLOWED_ORIGIN cfg with
          | Some origin => origin
          | None => "https://www.onlinetherapytools.com"
          end);
         ("Access-Control-Allow-Methods", "GET,POST,PUT,DELETE,OPTIONS");
         ("Access-Control-Allow-Headers", "Content-Type,Authorization");
         ("Access-Control-Allow-Credentials", "false");
         ("Content-Type", "application/json") ].
Proof.
  split; [| split; [| reflexivity]].
  - destruct (issuance_outcomes cfg e w req)
      as [[_ Hr] | [(_ & _ & Hr) | [(p & _ & _ & Hr) | [(p & _ & _ & _ & Hr)
         | (p & user & _ & _ & _ & _ & Hr)]]]];
      rewrite Hr; unfold response_of; simpl; try reflexivity.
    rewrite mint_run. destruct (fails e AtResetUpsert); reflexivity.
  - destruct (redemption_no_call cfg e w req)
      as [(r & Hr & Hin & _) | (p & -> & He & Hc & Hp)].
    { rewrite Hr. unfold response_of. simpl in *.
      destruct Hin as [<- | [<- | [<- | [<- | [<- | []]]]]]; reflexivity. }
    unfold response_of.
    destruct (redemption_run cfg e w p He Hc Hp)
      as [[_ ->] | (t & _ & _ & [[_ ->] | [(_ & _ & ->)
         | (_ & _ & _ & [[_ ->] | [_ ->]])]])];
      simpl; reflexivity.
Qed.

(** X19: redemption sends no e-mail and writes no token record anew; the
    only token row it can change or remove is the row of the submitted code;
    the table of users changes only when the answer is success, and then no
    user row is added or removed and no row changes its owner identifier or
    its email. *)
Theorem resetpassword_frame cfg e w req :
  let w' := world_of (exec e (resetpassword cfg req) w) in
  outbox w' = outbox w
  /\ quiet (trace_of (exec e (resetpassword cfg req) w))
  /\ (forall k, resetrequests w !! k = None -> resetrequests w' !! k = None)
  /\ (forall k,
        resetrequests w' !! k <> resetrequests w !! k ->
        exists p, json req = Some p
                  /\ k = ("reset", nullish (p_code p) EmptyString))
  /\ (prospects w' = prospects w
      \/ response_of (exec e (resetpassword cfg req) w) = redeemed_200 cfg)
  /\ (forall k,
        prospects w' !! k = prospects w !! k
        \/ exists u u',
             prospects w !! k = Some u /\ prospects w' !! k = Some u'
             /\ u_therapistId u' = u_therapistId u
             /\ u_email u' = u_email u).
Proof.
  intros w'. subst w'.
  assert (forall r tr,
            exec e (resetpassword cfg req) w = (r, w, tr) -> quiet tr ->
            outbox (world_of (exec e (resetpassword cfg req) w)) = outbox w
            /\ quiet (trace_of (exec e (resetpassword cfg req) w))
            /\ (forall k, resetrequests w !! k = None ->
                  resetrequests (world_of (exec e (resetpassword cfg req) w)) !! k
                  = None)
            /\ (forall k,
                  resetrequests (world_of (exec e (resetpassword cfg req) w)) !! k
                  <> resetrequests w !! k ->
                  exists p, json req = Some p
                            /\ k = ("reset", nullish (p_code p) EmptyString))
            /\ (prospects (world_of (exec e (resetpassword cfg req) w))
                = prospects w
                \/ response_of (exec e (resetpassword cfg req) w)
                   = redeemed_200 cfg)
            /\ (forall k,
                  prospects (world_of (exec e (resetpassword cfg req) w)) !! k
                  = prospects w !! k
                  \/ exists u u',
                       prospects w !! k = Some u
                       /\ prospects (world_of (exec e (resetpassword cfg req) w)) !! k
                          = Some u'
                       /\ u_therapistId u' = u_therapistId u
                       /\ u_email u' = u_email u)) as Hsame.
  { intros r tr -> Hq. unfold world_of, trace_of. simpl.
    repeat split; auto. intros k Hk. contradiction. }
  destruct (redemption_no_call cfg e w req)
    as [(r & Hr & _ & _) | (p & -> & He & Hc & Hp)].
  { apply (Hsame _ _ Hr). constructor. }
  set (key := ("reset", nullish (p_code p) EmptyString)).
  assert (forall w1 : World,
            (forall k, k <> key -> resetrequests w1 !! k = resetrequests w !! k) ->
            forall k, resetrequests w1 !! k <> resetrequests w !! k ->
                      exists p0, json (post p) = Some p0
                                 /\ k = ("reset", nullish (p_code p0) EmptyString))
    as Hkey.
  { intros w1 Hother k Hk. exists p. split; [reflexivity |].
    destruct (decide (k = key)) as [-> | Hne]; [reflexivity |].
    exfalso. apply Hk, Hother, Hne. }
  destruct (redemption_run cfg e w p He Hc Hp)
    as [[_ Hr] | (t & Hg & Ht & [[_ Hr] | [(_ & _ & Hr)
       | (Hmail & Hexp & Hunused & [[_ Hr] | [Hm Hr]])]])].
  - apply (Hsame _ _ Hr). repeat constructor.
  - apply (Hsame _ _ Hr). repeat constructor.
  - rewrite Hr. unfold world_of, trace_of, response_of. simpl.
    destruct (deleteToken_rows e w key) as [Hnone Hother].
    split; [apply deleteToken_outbox |]. split; [repeat constructor |].
    split; [exact Hnone |]. split; [apply Hkey, Hother |].
    split; [left; apply deleteToken_prospects |].
    intros k. left. rewrite deleteToken_prospects. reflexivity.
  - apply (Hsame _ _ Hr). repeat constructor.
  - rewrite Hr. unfold world_of, trace_of, response_of. simpl.
    destruct (updateToken_rows e w key true AnyETag) as [Hnone Hother].
    destruct (updateToken_frame e w key true AnyETag) as [Hpro Hout].
    split; [exact Hout |]. split; [repeat constructor |].
    split; [exact Hnone |]. split; [apply Hkey, Hother |].
    split; [left; exact Hpro |].
    intros k. left. exact (f_equal (fun m => m !! k) Hpro).
Qed.

(** X21: a redemption that finds the record of its code expired (the
    expiry instant included) or used, and whose delete resolves, answers 400
    Code has expired or already been used., removes exactly that record and
    touches nothing else; the next redemption of that code, by anyone at any
    time, finds no record and gets 400 Invalid or expired code. without a
    change to the world. *)
Theorem resetpassword_stale_code_deleted cfg e e' w p t :
  let email := normalize (p_email p) in
  let code := nullish (p_code p) EmptyString in
  let w' := world_of (exec e (resetpassword cfg (post p)) w) in
  isValidEmail email = true ->
  six_digits code = true ->
  isValidPassword (p_newPassword p) = true ->
  fails e AtResetGet = false ->
  fails e AtResetDelete = false ->
  resetrequests w !! ("reset", code) = Some t ->
  normalize (Some (t_email t)) = email ->
  t_expiresAt t <= clock e \/ t_used t = true ->
  response_of (exec e (resetpassword cfg (post p)) w) = refused_400 cfg
  /\ resetrequests w' = delete ("reset", code) (resetrequests w)
  /\ prospects w' = prospects w
  /\ outbox w' = outbox w
  /\ exec e' (resetpassword cfg (post p)) w'
     = (reply 400 (commonHeaders cfg) false "Invalid or expired code.", w',
        [EvResetGet "reset" code false]).
Proof.
  intros email code w' He Hc Hp Hg Hd Ht Hmail Hdead.
  destruct (resetpassword_checks_pass _ _ _ He Hc Hp) as (Ce & Cc & Cp).
  assert ((t_expiresAt t <=? clock e) || t_used t = true) as Hl.
  { destruct Hdead as [H | H].
    - apply Z.leb_le in H. rewrite H. reflexivity.
    - rewrite H. apply orb_true_r. }
  assert (exec e (resetpassword cfg (post p)) w
          = (refused_400 cfg,
             with_resetrequests w (delete ("reset", code) (resetrequests w)),
             [EvResetGet "reset" code true; EvResetDelete "reset" code true]))
    as Hrun.
  { subst email code. unfold resetpassword, post.
    repeat (progress (simpl;
                      rewrite ?Ce, ?Cc, ?Cp;
                      unfold getEntity, deleteToken;
                      rewrite ?Hg, ?Hd, ?Ht, ?Hmail, ?String.eqb_refl, ?Hl)).
    reflexivity. }
  subst w'. rewrite Hrun. unfold response_of, world_of. simpl.
  repeat (split; [reflexivity |]).
  subst email code. unfold resetpassword, post. simpl.
  rewrite Ce, Cc, Cp. simpl. unfold getEntity. simpl.
  rewrite lookup_delete_eq. destruct (fails e' AtResetGet); reflexivity.
Qed.

Lemma resetpassword_stale_code_deleted_witness :
  let w' :=
    world_of
      (exec Sample.env
         (resetpassword Sample.cfg
            (Sample.redeem "bob@example.com" "100000" "Abcdefg1"))
         Sample.w_bob_used) in
  response_of
    (exec Sample.env
       (resetpassword Sample.cfg
          (Sample.redeem "bob@example.com" "100000" "Abcdefg1"))
       Sample.w_bob_used) = refused_400 Sample.cfg
  /\ resetrequests w' = delete ("reset", "100000") (resetrequests Sample.w_bob_used)
  /\ exec Sample.env_mid
       (resetpassword Sample.cfg
          (Sample.redeem "bob@example.com" "100000" "Abcdefg1")) w'
     = (reply 400 (commonHeaders Sample.cfg) false "Invalid or expired code.", w',
        [EvResetGet "reset" "100000" false]).
Proof.
  intros w'.
  destruct (resetpassword_stale_code_deleted Sample.cfg Sample.env Sample.env_mid
              Sample.w_bob_used
              {| p_email := Some "bob@example.com"; p_code := Some "100000";
                 p_newPassword := Some "Abcdefg1" |}
              (Sample.token "T2" "bob@example.com" 500 true 2)
              eq_refl eq_refl eq_refl eq_refl eq_refl eq_refl eq_refl
              (or_intror eq_refl))
    as (Hresp & Hrows & _ & _ & Hnext).
  split; [exact Hresp |]. split; [exact Hrows | exact Hnext].
Defined.

(** ** What the two handlers do to a token row *)

(** A redemption call leaves a token row as it was, deletes it, or marks
    used a row that was unused. *)
Lemma resetpassword_token_rows cfg e w req k :
  resetrequests (world_of (exec e (resetpassword cfg req) w)) !! k
  = resetrequests w !! k
  \/ resetrequests (world_of (exec e (resetpassword cfg req) w)) !! k = None
  \/ exists t t',
       resetrequests w !! k = Some t /\ t_used t = false
       /\ resetrequests (world_of (exec e (resetpassword cfg req) w)) !! k
          = Some t'
       /\ t_used t' = true.
Proof.
  destruct (redemption_no_call cfg e w req)
    as [(r & Hr & _ & _) | (p & -> & He & Hc & Hp)].
  { rewrite Hr. left. reflexivity. }
  unfold world_of.
  destruct (redemption_run cfg e w p He Hc Hp)
    as [[_ ->] | (t & _ & Ht & [[_ ->] | [(_ & _ & ->)
       | (_ & _ & Hunused & [[_ ->] | [_ ->]])]])];
    simpl; try (left; reflexivity).
  - destruct (deleteToken_lookup e w
                ("reset", nullish (p_code p) EmptyString) k) as [H | H];
      [right; left; exact H | left; exact H].
  - destruct (updateToken_lookup e w
                ("reset", nullish (p_code p) EmptyString) true AnyETag k)
      as [H | (-> & t0 & t' & H0 & H' & Hu)]; [left; exact H |].
    right. right. exists t0, t'. rewrite Ht in H0. injection H0 as <-. auto.
Qed.

(** C1, as the code has it: a token record marked used is, after any
    redemption call, still there unchanged or deleted; and so it is after
    any issuance call, unless its key is the code that call mints. *)
Theorem used_token_not_reactivated cfg e w req k t :
  resetrequests w !! k = Some t ->
  t_used t = true ->
  (resetrequests (world_of (exec e (resetpassword cfg req) w)) !! k = Some t
   \/ resetrequests (world_of (exec e (resetpassword cfg req) w)) !! k = None)
  /\ (k <> ("reset", minted_code e) ->
      resetrequests (world_of (exec e (requestpasswordreset cfg req) w)) !! k
      = Some t
      \/ resetrequests (world_of (exec e (requestpasswordreset cfg req) w)) !! k
         = None).
Proof.
  intros Ht Hused. split.
  - destruct (resetpassword_token_rows cfg e w req k)
      as [H | [H | (t0 & t' & H0 & Hu & _)]].
    + left. rewrite H. exact Ht.
    + right. exact H.
    + rewrite Ht in H0. injection H0 as <-. congruence.
  - intros Hne.
    left. rewrite (requestpasswordreset_token_rows cfg e w req k Hne). exact Ht.
Qed.

Lemma used_token_not_reactivated_witness :
  (resetrequests
     (world_of
        (exec Sample.env
           (resetpassword Sample.cfg
              (Sample.redeem "alice@example.com" "111111" "Abcdefg1"))
           Sample.w_alice_and_bob_used)) !! ("reset", "100000")
   = Some (Sample.token "T2" "bob@example.com" 500 true 3)
   \/ resetrequests
        (world_of
           (exec Sample.env
              (resetpassword Sample.cfg
                 (Sample.redeem "alice@example.com" "111111" "Abcdefg1"))
              Sample.w_alice_and_bob_used)) !! ("reset", "100000") = None)
  /\ (resetrequests
        (world_of
           (exec Sample.env_mid
              (requestpasswordreset Sample.cfg (Sample.issue "alice@example.com"))
              Sample.w_alice_and_bob_used)) !! ("reset", "100000")
      = Some (Sample.token "T2" "bob@example.com" 500 true 3)
      \/ resetrequests
           (world_of
              (exec Sample.env_mid
                 (requestpasswordreset Sample.cfg (Sample.issue "alice@example.com"))
                 Sample.w_alice_and_bob_used)) !! ("reset", "100000") = None).
Proof.
  split.
  - apply (proj1 (used_token_not_reactivated Sample.cfg Sample.env
                    Sample.w_alice_and_bob_used
                    (Sample.redeem "alice@example.com" "111111" "Abcdefg1")
                    ("reset", "100000")
                    (Sample.token "T2" "bob@example.com" 500 true 3)
                    eq_refl eq_refl)).
  - apply (proj2 (used_token_not_reactivated Sample.cfg Sample.env_mid
                    Sample.w_alice_and_bob_used
                    (Sample.issue "alice@example.com")
                    ("reset", "100000")
                    (Sample.token "T2" "bob@example.com" 500 true 3)
                    eq_refl eq_refl)).
    vm_compute. intros [=].
Defined.

(** C1 as stated fails: Bob's token 100000 is used; Alice asks for a token,
    the code minted for her is 100000, and the write replaces Bob's used
    record by an unused one. *)
Lemma minting_reactivates_used_code :
  resetrequests Sample.w_bob_used !! ("reset", "100000")
  = Some {| t_therapistId := "T2"; t_email := "bob@example.com";
            t_createdAt := 500; t_expiresAt := 900500;
            t_used := true; t_etag := 2 |}
  /\ resetrequests
       (world_of
          (exec Sample.env
             (requestpasswordreset Sample.cfg (Sample.issue "alice@example.com"))
             Sample.w_bob_used)) !! ("reset", "100000")
     = Some {| t_therapistId := "T1"; t_email := "alice@example.com";
               t_createdAt := 1000; t_expiresAt := 901000;
               t_used := false; t_etag := 10 |}.
Proof. split; vm_compute; reflexivity. Qed.

(** ** Redemption: the mark and what follows it *)

(** No run of redemption reaches the write of the password: the scan for
    the owner throws, so the answer is never the success reply and the
    table of users is never written. *)
Lemma redemption_dead_end cfg e w req :
  response_of (exec e (resetpassword cfg req) w) <> redeemed_200 cfg
  /\ prospects (world_of (exec e (resetpassword cfg req) w)) = prospects w.
Proof.
  destruct (redemption_no_call cfg e w req)
    as [(r & Hr & Hin & _) | (p & -> & He & Hc & Hp)].
  { rewrite Hr. unfold response_of, world_of. simpl in *.
    split; [| reflexivity].
    destruct Hin as [<- | [<- | [<- | [<- | [<- | []]]]]]; discriminate. }
  unfold response_of, world_of.
  destruct (redemption_run cfg e w p He Hc Hp)
    as [[_ ->] | (t & _ & _ & [[_ ->] | [(_ & _ & ->)
       | (_ & _ & _ & [[_ ->] | [_ ->]])]])];
    simpl; (split; [discriminate |]); try reflexivity.
  - apply deleteToken_prospects.
  - apply updateToken_frame.
Qed.

(** C9: a redemption call whose mark of the token record resolved goes on
    to look for the owner and fails there: it answers 400 Account not
    found. (the write of the hash, and with it the 500 of a failed write, is
    never reached), the token record is marked used, and no user row has
    changed. From then on, after any sequence of calls, a redemption of that
    code does not answer the success reply and changes no user row. *)
Theorem resetpassword_not_atomic cfg e w p :
  let code := nullish (p_code p) EmptyString in
  let run := exec e (resetpassword cfg (post p)) w in
  In (EvResetUpdate "reset" code true true) (trace_of run) ->
  response_of run = reply 400 (commonHeaders cfg) false "Account not found."
  /\ (exists t,
        resetrequests (world_of run) !! ("reset", code) = Some t
        /\ t_used t = true)
  /\ prospects (world_of run) = prospects w
  /\ forall calls e' p',
       nullish (p_code p') EmptyString = code ->
       let later :=
         exec e' (resetpassword cfg (post p'))
           (snd (run_calls cfg calls (world_of run))) in
       response_of later <> redeemed_200 cfg
       /\ prospects (world_of later)
          = prospects (snd (run_calls cfg calls (world_of run))).
Proof.
  intros code run Hin. subst code run.
  split; [| split; [| split]].
  4:{ intros calls e' p' _. apply redemption_dead_end. }
  all: revert Hin;
    destruct (redemption_no_call cfg e w (post p))
      as [(r & Hr & _ & _) | (p0 & [= <-] & He & Hc & Hp)];
      [rewrite Hr; intros [] |];
    unfold response_of, world_of, trace_of;
    destruct (redemption_run cfg e w p He Hc Hp)
      as [[_ ->] | (t & _ & Ht & [[_ ->] | [(_ & _ & ->)
         | (_ & _ & _ & [[_ ->] | [Hm ->]])]])];
      simpl;
      try (intros [[=] | []]; fail);
      try (intros [[=] | [[=] | []]]; fail);
      intros _.
  - reflexivity.
  - rewrite (updateToken_any _ _ _ _ Ht), Hm. simpl.
    eexists. split; [apply lookup_insert_eq | reflexivity].
  - apply updateToken_frame.
Qed.

(** Alice redeems her valid code: the record is marked used, the answer
    is 400, and her password is the old one. *)
Lemma resetpassword_not_atomic_witness :
  let run :=
    exec Sample.env
      (resetpassword Sample.cfg
         (Sample.redeem "alice@example.com" "111111" "Abcdefg1"))
      Sample.w_alice_one in
  response_of run
  = reply 400 (commonHeaders Sample.cfg) false "Account not found."
  /\ (exists t,
        resetrequests (world_of run) !! ("reset", "111111") = Some t
        /\ t_used t = true)
  /\ prospects (world_of run) = prospects Sample.w_alice_one
  /\ response_of
       (exec Sample.env_mid
          (resetpassword Sample.cfg
             (Sample.redeem "alice@example.com" "111111" "Abcdefg1"))
          (snd (run_calls Sample.cfg
                  [Issuance Sample.env (Sample.issue "bob@example.com")]
                  (world_of run))))
     <> redeemed_200 Sample.cfg.
Proof.
  intros run.
  destruct (resetpassword_not_atomic Sample.cfg Sample.env Sample.w_alice_one
              {| p_email := Some "alice@example.com"; p_code := Some "111111";
                 p_newPassword := Some "Abcdefg1" |})
    as (Hresp & Hused & Hpro & Hlater).
  - vm_compute. right. left. reflexivity.
  - split; [exact Hresp |]. split; [exact Hused |]. split; [exact Hpro |].
    apply (Hlater [Issuance Sample.env (Sample.issue "bob@example.com")]
             Sample.env_mid
             {| p_email := Some "alice@example.com"; p_code := Some "111111";
                p_newPassword := Some "Abcdefg1" |} eq_refl).
Defined.

(** ** Two redemptions of one code at once *)




(** ** The e-mail shape check against the regular expression *)

Lemma takeWhile_dropWhile p l : (takeWhile p l ++ dropWhile p l)%list = l.
Proof.
  induction l as [| c l IH]; simpl; [reflexivity |].
  destruct (p c); simpl; [rewrite IH |]; reflexivity.
Qed.

Lemma takeWhile_all p l : forallb p (takeWhile p l) = true.
Proof.
  induction l as [| c l IH]; simpl; [reflexivity |].
  destruct (p c) eqn:Hc; simpl; [rewrite Hc; exact IH | reflexivity].
Qed.

Lemma takeWhile_stop p a c rest :
  forallb p a = true -> p c = false ->
  takeWhile p (a ++ c :: rest)%list = a
  /\ dropWhile p (a ++ c :: rest)%list = c :: rest.
Proof.
  intros Ha Hc. induction a as [| x a IH]; simpl in *.
  - rewrite Hc. split; reflexivity.
  - apply andb_true_iff in Ha as [Hx Ha]. rewrite Hx.
    destruct (IH Ha) as [-> ->]. split; reflexivity.
Qed.

Lemma inner_dot_spec d :
  inner_dot d = true <->
  exists b c, d = (b ++ "."%char :: c)%list /\ b <> [] /\ c <> [].
Proof.
  split.
  - destruct d as [| x t]; simpl; [discriminate |].
    intros H. apply existsb_exists in H as (y & Hin & Hy).
    apply Ascii.eqb_eq in Hy. subst y.
    assert (t <> []) as Hne by (intros ->; simpl in Hin; contradiction).
    apply in_split in Hin as (u & v & Huv).
    exists (x :: u), (v ++ [List.last t "."%char])%list.
    split; [| split].
    + rewrite (app_removelast_last "."%char Hne) at 1. rewrite Huv.
      simpl. rewrite <- app_assoc. reflexivity.
    + discriminate.
    + destruct v; discriminate.
  - intros (b & c & -> & Hb & Hc).
    destruct b as [| x b]; [contradiction |]. simpl.
    apply existsb_exists. exists "."%char. split; [| reflexivity].
    rewrite removelast_app by discriminate.
    apply in_or_app. right.
    destruct c as [| y c]; [contradiction |]. left. reflexivity.
Qed.

(** X4: [email_regex] accepts exactly the strings of the shape the
    regular expression of [isValidEmail] describes: a non-empty run of
    characters other than white space and the at sign, an at sign, a second
    such run, a dot, and a third such run, with nothing before or after. *)
Theorem email_regex_spec l :
  email_regex l = true <->
  exists a b c,
    l = (a ++ "@"%char :: b ++ "."%char :: c)%list
    /\ a <> [] /\ b <> [] /\ c <> []
    /\ forallb email_atom a = true
    /\ forallb email_atom b = true
    /\ forallb email_atom c = true.
Proof.
  unfold email_regex. split.
  - pose proof (takeWhile_dropWhile email_atom l) as Hsplit.
    pose proof (takeWhile_all email_atom l) as Hall.
    destruct (dropWhile email_atom l) as [| c0 d]; [discriminate |].
    intros H. repeat (apply andb_true_iff in H as [H ?]).
    apply Ascii.eqb_eq in H. subst c0.
    match goal with Hd : inner_dot d = true |- _ =>
      apply inner_dot_spec in Hd as (b & c & -> & Hb & Hc) end.
    match goal with Hf : forallb email_atom (b ++ _) = true |- _ =>
      rewrite forallb_app in Hf; apply andb_true_iff in Hf as [Hfb Hfc] end.
    simpl in Hfc.
    exists (takeWhile email_atom l), b, c.
    split; [symmetry; exact Hsplit |].
    split; [| repeat split; auto].
    intros Hnil. rewrite Hnil in *. discriminate.
  - intros (a & b & c & -> & Ha & Hb & Hc & Hfa & Hfb & Hfc).
    destruct (takeWhile_stop email_atom a "@"%char (b ++ "."%char :: c)%list Hfa eq_refl)
      as [-> ->].
    rewrite Ascii.eqb_refl. simpl.
    apply andb_true_iff. split; [apply andb_true_iff; split |].
    + destruct a; [contradiction | reflexivity].
    + rewrite forallb_app. simpl. rewrite Hfb, Hfc. reflexivity.
    + apply inner_dot_spec. exists b, c. auto.
Qed.

(** ** The string helpers *)

Lemma chars_of_chars l : chars (of_chars l) = l.
Proof. apply list_ascii_of_string_of_list_ascii. Qed.

Lemma of_chars_chars s : of_chars (chars s) = s.
Proof. apply string_of_list_ascii_of_string. Qed.

Lemma of_chars_app a b : of_chars (a ++ b)%list = of_chars a ++ of_chars b.
Proof. induction a as [| c a IH]; simpl; [reflexivity | rewrite IH; reflexivity]. Qed.

Lemma length_of_chars l : String.length (of_chars l) = length l.
Proof. induction l as [| c l IH]; simpl; [reflexivity | rewrite IH; reflexivity]. Qed.

Lemma dropWhile_starts_clean p l : starts_clean p (dropWhile p l) = true.
Proof.
  induction l as [| c l IH]; simpl; [reflexivity |].
  destruct (p c) eqn:Hc; [exact IH | simpl; rewrite Hc; reflexivity].
Qed.

Lemma dropWhile_clean p l : starts_clean p l = true -> dropWhile p l = l.
Proof.
  destruct l as [| c l]; simpl; [reflexivity |].
  destruct (p c); [discriminate | reflexivity].
Qed.

Lemma dropWhile_suffix p l : exists pre, l = (pre ++ dropWhile p l)%list.
Proof.
  induction l as [| c l [pre IH]]; simpl; [exists []; reflexivity |].
  destruct (p c); [| exists []; reflexivity].
  exists (c :: pre). simpl. rewrite <- IH. reflexivity.
Qed.

Lemma starts_clean_prefix p a b :
  a <> [] -> starts_clean p (a ++ b)%list = true -> starts_clean p a = true.
Proof. destruct a; [contradiction | simpl; auto]. Qed.

(** What [trim] returns neither starts nor ends with white space. *)
Lemma trim_chars_clean l :
  starts_clean is_space (trim_chars l) = true
  /\ starts_clean is_space (rev (trim_chars l)) = true.
Proof.
  unfold trim_chars. rewrite rev_involutive.
  split; [| apply dropWhile_starts_clean].
  destruct (dropWhile_suffix is_space (rev (dropWhile is_space l))) as [pre Hpre].
  apply (f_equal (@rev ascii)) in Hpre.
  rewrite rev_involutive, rev_app_distr in Hpre.
  destruct (rev (dropWhile is_space (rev (dropWhile is_space l)))) as [| c r] eqn:Hr;
    [reflexivity |].
  apply (starts_clean_prefix is_space (c :: r) (rev pre)); [discriminate |].
  rewrite <- Hpre. apply dropWhile_starts_clean.
Qed.

Lemma trim_chars_fixed l :
  starts_clean is_space l = true -> starts_clean is_space (rev l) = true ->
  trim_chars l = l.
Proof.
  intros H1 H2. unfold trim_chars.
  rewrite (dropWhile_clean _ _ H1), (dropWhile_clean _ _ H2).
  apply rev_involutive.
Qed.

Lemma is_space_lower_char c : is_space (lower_char c) = is_space c.
Proof. destruct c as [[] [] [] [] [] [] [] []]; reflexivity. Qed.

Lemma is_upper_lower_char c : is_upper (lower_char c) = false.
Proof. destruct c as [[] [] [] [] [] [] [] []]; reflexivity. Qed.

Lemma lower_char_fixed c : is_upper c = false -> lower_char c = c.
Proof. unfold lower_char. intros ->. reflexivity. Qed.

Lemma starts_clean_map_lower l :
  starts_clean is_space (map lower_char l) = starts_clean is_space l.
Proof. destruct l; simpl; [reflexivity | rewrite is_space_lower_char; reflexivity]. Qed.

(** X5: on a string of ASCII characters, and on an absent one, normalizing
    is idempotent, and what it returns holds no upper-case letter A-Z and
    neither starts nor ends with white space: a normalized address is a
    fixed point of [normalize]. *)
Theorem normalize_canonical (s : option string) :
  ascii_only s = true ->
  normalize (Some (normalize s)) = normalize s
  /\ existsb is_upper (chars (normalize s)) = false
  /\ starts_clean is_space (chars (normalize s)) = true
  /\ starts_clean is_space (rev (chars (normalize s))) = true
  /\ ascii_only (Some (normalize s)) = true.
Proof.
  intros Hascii.
  assert (forall l,
            existsb is_upper (map lower_char l) = false) as Hup.
  { induction l as [| c l IH]; simpl; [reflexivity |].
    rewrite is_upper_lower_char. exact IH. }
  assert (forall l, existsb is_upper l = false -> map lower_char l = l) as Hfix.
  { induction l as [| c l IH]; simpl; [reflexivity |].
    intros H. apply orb_false_iff in H as [Hc Hl].
    rewrite (lower_char_fixed _ Hc), (IH Hl). reflexivity. }
  destruct s as [s |]; [| repeat split; reflexivity].
  unfold normalize, toLowerCase, trim. rewrite !chars_of_chars.
  destruct (trim_chars_clean (chars s)) as [Hhead Hlast].
  assert (forallb (in_range 0 127) (map lower_char (trim_chars (chars s))) = true)
    as Hkeep.
  { simpl in Hascii.
    assert (forall l, (forall c, In c l -> in_range 0 127 c = true) ->
                      forallb (in_range 0 127) (map lower_char l) = true) as Hmap.
    { induction l as [| c l IH]; simpl; [reflexivity |]. intros Hl.
      rewrite (IH (fun c' H' => Hl c' (or_intror H'))), andb_true_r.
      pose proof (Hl c (or_introl eq_refl)) as Hlow. clear -Hlow.
      destruct c as [[] [] [] [] [] [] [] []];
        first [reflexivity | discriminate Hlow]. }
    apply Hmap. intros c Hc.
    unfold trim_chars in Hc. apply in_rev in Hc.
    destruct (dropWhile_suffix is_space (rev (dropWhile is_space (chars s))))
      as [pre Hpre].
    assert (In c (rev (dropWhile is_space (chars s)))) as Hc'
      by (rewrite Hpre; apply in_or_app; right; exact Hc).
    apply in_rev in Hc'.
    destruct (dropWhile_suffix is_space (chars s)) as [pre' Hpre'].
    apply (proj1 (forallb_forall _ _) Hascii).
    rewrite Hpre'. apply in_or_app. right. exact Hc'. }
  set (t := trim_chars (chars s)) in *.
  assert (starts_clean is_space (map lower_char t) = true) as Hhead'
    by (rewrite starts_clean_map_lower; exact Hhead).
  assert (starts_clean is_space (rev (map lower_char t)) = true) as Hlast'
    by (rewrite <- map_rev, starts_clean_map_lower; exact Hlast).
  split; [| split; [apply Hup | split; [assumption | split; [assumption |]]]].
  - rewrite (trim_chars_fixed _ Hhead' Hlast').
    rewrite (Hfix _ (Hup t)). reflexivity.
  - simpl. rewrite chars_of_chars. exact Hkeep.
Qed.

Lemma normalize_canonical_witness :
  normalize (Some (normalize (Some "  Alice@Example.COM ")))
  = normalize (Some "  Alice@Example.COM ")
  /\ normalize (Some "  Alice@Example.COM ") = "alice@example.com".
Proof.
  split; [| reflexivity].
  apply (normalize_canonical (Some "  Alice@Example.COM ")). reflexivity.
Defined.

(** ** The password policy *)

Lemma in_suffixes s l : In s (suffixes l) <-> exists pre, l = (pre ++ s)%list.
Proof.
  revert s. induction l as [| c l IH]; intros s; simpl.
  - split.
    + intros [<- | []]. exists []. reflexivity.
    + intros [pre H]. left. symmetry in H. apply app_eq_nil in H as [_ ->].
      reflexivity.
  - split.
    + intros [<- | H]; [exists []; reflexivity |].
      apply IH in H as [pre ->]. exists (c :: pre). reflexivity.
    + intros [[| x pre] H]; simpl in H.
      * left. exact H.
      * right. injection H as _ ->. apply IH. exists pre. reflexivity.
Qed.

Lemma takeWhile_app_all p a b :
  forallb p a = true -> takeWhile p (a ++ b)%list = (a ++ takeWhile p b)%list.
Proof.
  induction a as [| x a IH]; simpl; [reflexivity |].
  intros H. apply andb_true_iff in H as [-> Ha]. rewrite (IH Ha). reflexivity.
Qed.

Lemma policy_regex_spec l :
  policy_regex l = true <->
  exists pre line post,
    l = (pre ++ line ++ post)%list
    /\ existsb is_line_terminator line = false
    /\ existsb is_lower line = true
    /\ existsb is_upper line = true
    /\ existsb is_digit line = true.
Proof.
  unfold policy_regex. rewrite existsb_exists. split.
  - intros (s & Hin & H). apply in_suffixes in Hin as [pre ->].
    apply andb_true_iff in H as [H Hd]. apply andb_true_iff in H as [Hl Hu].
    exists pre, (takeWhile (fun c => negb (is_line_terminator c)) s),
      (dropWhile (fun c => negb (is_line_terminator c)) s).
    rewrite takeWhile_dropWhile. split; [reflexivity |].
    split; [| auto].
    pose proof (takeWhile_all (fun c => negb (is_line_terminator c)) s) as Hall.
    clear -Hall.
    induction (takeWhile _ s) as [| c t IH]; simpl in *; [reflexivity |].
    apply andb_true_iff in Hall as [Hc Ht].
    apply negb_true_iff in Hc. rewrite Hc. simpl. exact (IH Ht).
  - intros (pre & line & post & -> & Hnl & Hl & Hu & Hd).
    exists (line ++ post)%list. split; [apply in_suffixes; exists pre; reflexivity |].
    rewrite takeWhile_app_all.
    + rewrite !existsb_app, Hl, Hu, Hd. reflexivity.
    + clear -Hnl. induction line as [| c t IH]; simpl in *; [reflexivity |].
      apply orb_false_iff in Hnl as [-> Ht]. simpl. exact (IH Ht).
Qed.

(** X6: the password check accepts exactly the strings of 8 to 128
    characters that hold none of the five HTML characters and in which some
    stretch free of line terminators holds a lower-case letter, an upper-case
    letter and a digit. A password whose three classes sit on different lines
    only is refused, and so is an absent one. *)
Theorem isValidPassword_spec (password : option string) :
  isValidPassword password = true <->
  exists p,
    password = Some p
    /\ (8 <= String.length p <= 128)%nat
    /\ existsb html_char (chars p) = false
    /\ exists pre line post,
         chars p = (pre ++ line ++ post)%list
         /\ existsb is_line_terminator line = false
         /\ existsb is_lower line = true
         /\ existsb is_upper line = true
         /\ existsb is_digit line = true.
Proof.
  unfold isValidPassword. split.
  - destruct password as [p |]; [| discriminate].
    destruct (negb (truthy p)); [discriminate |].
    destruct (_ || _) eqn:Hlen; [discriminate |].
    destruct (existsb html_char (chars p)) eqn:Hhtml; [discriminate |].
    destruct (policy_regex (chars p)) eqn:Hpol; [| discriminate].
    intros _. exists p. apply orb_false_iff in Hlen as [H8 H128].
    apply Nat.ltb_ge in H8, H128.
    split; [reflexivity |]. split; [lia |]. split; [exact Hhtml |].
    apply policy_regex_spec. exact Hpol.
  - intros (p & -> & [H8 H128] & Hhtml & Hpol).
    apply policy_regex_spec in Hpol.
    assert (truthy p = true) as -> by (destruct p; [simpl in H8; lia | reflexivity]).
    apply Nat.ltb_ge in H8, H128. simpl. rewrite H8, H128. simpl. rewrite Hhtml, Hpol. reflexivity.
Qed.

(** ** The masked address *)

Lemma normalize_idempotent (s : option string) :
  normalize (Some (normalize s)) = normalize s.
Proof.
  destruct s as [s |]; [| reflexivity].
  unfold normalize, toLowerCase, trim. rewrite !chars_of_chars. f_equal.
  destruct (trim_chars_clean (chars s)) as [Hhead Hlast].
  rewrite trim_chars_fixed.
  - rewrite map_map. apply map_ext. intros c.
    apply lower_char_fixed, is_upper_lower_char.
  - rewrite starts_clean_map_lower. exact Hhead.
  - rewrite <- map_rev, starts_clean_map_lower. exact Hlast.
Qed.

Lemma split_chars_no_sep sep cur l :
  existsb (fun c => Ascii.eqb c sep) l = false ->
  split_chars sep cur l = [(rev cur ++ l)%list].
Proof.
  revert cur. induction l as [| c l IH]; intros cur H; simpl in *.
  - rewrite app_nil_r. reflexivity.
  - apply orb_false_iff in H as [-> Hl]. rewrite (IH _ Hl). simpl.
    rewrite <- app_assoc. reflexivity.
Qed.

Lemma split_chars_at_sep sep cur a b :
  existsb (fun c => Ascii.eqb c sep) a = false ->
  split_chars sep cur (a ++ sep :: b)%list
  = (rev cur ++ a)%list :: split_chars sep [] b.
Proof.
  revert cur. induction a as [| c a IH]; intros cur H; simpl in *.
  - rewrite Ascii.eqb_refl, app_nil_r. reflexivity.
  - apply orb_false_iff in H as [-> Ha]. rewrite (IH _ Ha). simpl.
    rewrite <- app_assoc. reflexivity.
Qed.

Lemma atoms_have_no_at l :
  forallb email_atom l = true ->
  existsb (fun c => Ascii.eqb c "@"%char) l = false.
Proof.
  induction l as [| c l IH]; simpl; [reflexivity |].
  intros H. apply andb_true_iff in H as [Hc Hl].
  unfold email_atom in Hc. apply andb_true_iff in Hc as [_ Hc].
  apply negb_true_iff in Hc. rewrite Hc. exact (IH Hl).
Qed.

(** X7: on every address the handlers let through, the mask is built from
    the part before the at sign and the part after it: at most the first two
    characters of the first part, then as many stars as characters were
    hidden but at least three, then the at sign and the second part
    unchanged. *)
Theorem maskEmail_of_valid (s : option string) :
  isValidEmail (normalize s) = true ->
  exists user domain,
    normalize s = user ++ "@" ++ domain
    /\ (1 <= String.length user)%nat
    /\ existsb (fun c => Ascii.eqb c "@"%char) (chars user) = false
    /\ existsb (fun c => Ascii.eqb c "@"%char) (chars domain) = false
    /\ maskEmail (normalize s)
       = slice0 2 user
         ++ repeat_char "*"%char (Nat.max 3 (String.length user - 2))
         ++ "@" ++ domain.
Proof.
  unfold isValidEmail. rewrite normalize_idempotent.
  set (email := normalize s). unfold email_regex.
  pose proof (takeWhile_dropWhile email_atom (chars email)) as Hsplit.
  pose proof (takeWhile_all email_atom (chars email)) as Hlocal.
  set (local := takeWhile email_atom (chars email)) in *.
  destruct (dropWhile email_atom (chars email)) as [| c d]; [discriminate |].
  intros H. apply andb_true_iff in H as [H _].
  apply andb_true_iff in H as [H Hd]. apply andb_true_iff in H as [Hc Hlen].
  apply Ascii.eqb_eq in Hc. subst c.
  apply atoms_have_no_at in Hlocal, Hd.
  assert (email = of_chars local ++ "@" ++ of_chars d) as Hemail.
  { rewrite <- (of_chars_chars email), <- Hsplit, of_chars_app. reflexivity. }
  exists (of_chars local), (of_chars d).
  rewrite !chars_of_chars, length_of_chars.
  split; [exact Hemail |].
  split; [destruct local; [discriminate | simpl; lia] |].
  split; [exact Hlocal |]. split; [exact Hd |].
  unfold maskEmail, split. rewrite <- Hsplit.
  rewrite (split_chars_at_sep _ _ _ _ Hlocal), (split_chars_no_sep _ _ _ Hd).
  cbn [map nth rev app]. unfold slice0. rewrite !chars_of_chars, !length_of_chars.
  assert (firstn (Nat.min 2 (length local)) local = firstn 2 local) as ->.
  { destruct local as [| x [| y r]]; reflexivity. }
  assert (Nat.max 3 (length local - length (firstn 2 local))
          = Nat.max 3 (length local - 2)) as ->.
  { destruct local as [| x [| y r]]; reflexivity. }
  reflexivity.
Qed.

Lemma maskEmail_of_valid_witness :
  exists user domain,
    normalize (Some "Alice@Example.com ") = user ++ "@" ++ domain
    /\ (1 <= String.length user)%nat
    /\ existsb (fun c => Ascii.eqb c "@"%char) (chars user) = false
    /\ existsb (fun c => Ascii.eqb c "@"%char) (chars domain) = false
    /\ maskEmail (normalize (Some "Alice@Example.com "))
       = slice0 2 user
         ++ repeat_char "*"%char (Nat.max 3 (String.length user - 2))
         ++ "@" ++ domain.
Proof.
  apply (maskEmail_of_valid (Some "Alice@Example.com ")). reflexivity.
Defined.

(** ** Redemption of a valid code *)

(** X2: redeeming a valid, unexpired, unused code of the submitted address
    with a password that passes the policy, when the fetch and the mark
    resolve: the token record is marked used (the other token rows
    untouched), then the scan for the owner throws and the call answers 400
    Account not found.; no user row and no password has changed, and the
    code is spent. *)
Theorem resetpassword_valid_code_is_spent cfg e w p t :
  let email := normalize (p_email p) in
  let code := nullish (p_code p) EmptyString in
  isValidEmail email = true ->
  six_digits code = true ->
  isValidPassword (p_newPassword p) = true ->
  fails e AtResetGet = false ->
  fails e AtResetUpdate = false ->
  resetrequests w !! ("reset", code) = Some t ->
  normalize (Some (t_email t)) = email ->
  clock e < t_expiresAt t ->
  t_used t = false ->
  exists w',
    exec e (resetpassword cfg (post p)) w
    = (reply 400 (commonHeaders cfg) false "Account not found.", w',
       [EvResetGet "reset" code true;
        EvResetUpdate "reset" code true true;
        EvProspectsQuery (t_therapistId t) false])
    /\ t_used <$> resetrequests w' !! ("reset", code) = Some true
    /\ (forall k, k <> ("reset", code) ->
                  resetrequests w' !! k = resetrequests w !! k)
    /\ prospects w' = prospects w
    /\ outbox w' = outbox w.
Proof.
  intros email code He Hc Hp Hg Hm Ht Hmail Hexp Hunused.
  destruct (resetpassword_checks_pass _ _ _ He Hc Hp) as (Ce & Cc & Cp).
  assert ((t_expiresAt t <=? clock e) = false) as Hl by (apply Z.leb_gt; exact Hexp).
  subst email code. unfold resetpassword, post.
  repeat (progress (simpl;
                    rewrite ?Ce, ?Cc, ?Cp;
                    unfold getEntity, updateToken, queryEntities;
                    rewrite ?Hg, ?Hm, ?Ht, ?Hmail, ?String.eqb_refl,
                      ?Hl, ?Hunused)).
  eexists. split; [reflexivity |]. simpl.
  split; [rewrite lookup_insert_eq; reflexivity |].
  split; [intros k Hk; apply lookup_insert_ne; congruence |].
  split; reflexivity.
Qed.

Lemma resetpassword_valid_code_is_spent_witness :
  exists w',
    exec Sample.env
      (resetpassword Sample.cfg (Sample.redeem "Alice@Example.com " "111111" "Abcdefg1"))
      Sample.w_alice_one
    = (reply 400 (commonHeaders Sample.cfg) false "Account not found.", w',
       [EvResetGet "reset" "111111" true;
        EvResetUpdate "reset" "111111" true true;
        EvProspectsQuery "T1" false])
    /\ t_used <$> resetrequests w' !! ("reset", "111111") = Some true
    /\ prospects w' = prospects Sample.w_alice_one.
Proof.
  destruct (resetpassword_valid_code_is_spent Sample.cfg Sample.env
              Sample.w_alice_one
              {| p_email := Some "Alice@Example.com "; p_code := Some "111111";
                 p_newPassword := Some "Abcdefg1" |}
              (Sample.token "T1" "alice@example.com" 500 false 2)
              eq_refl eq_refl eq_refl eq_refl eq_refl eq_refl eq_refl
              eq_refl eq_refl)
    as (w' & Hrun & Hused & _ & Hpro & _).
  exists w'. split; [exact Hrun |]. split; [exact Hused | exact Hpro].
Defined.

(** ** Sequences of calls *)

Lemma issuance_is_no_redemption cfg e w req :
  response_of (exec e (requestpasswordreset cfg req) w) <> redeemed_200 cfg.
Proof.
  destruct (issuance_outcomes cfg e w req)
    as [[_ Hr] | [(_ & _ & Hr) | [(p & _ & _ & Hr) | [(p & _ & _ & _ & Hr)
       | (p & user & _ & _ & _ & _ & Hr)]]]];
    rewrite Hr; unfold response_of; simpl; try discriminate.
  rewrite mint_run. destruct (fails e AtResetUpsert); discriminate.
Qed.

(** X18: no sequence of issuance and redemption calls, whatever the
    requests, the clock, the draws and the failures they meet, ever gets the
    reply 200 Password reset successfully. or changes the table of users: no
    hashed password is ever replaced. *)
Theorem no_call_resets_a_password cfg calls w :
  prospects (snd (run_calls cfg calls w)) = prospects w
  /\ Forall (fun r => r <> redeemed_200 cfg) (fst (run_calls cfg calls w)).
Proof.
  revert w. induction calls as [| c calls IH]; intros w; simpl.
  { split; [reflexivity | constructor]. }
  assert (response_of (handle cfg c w) <> redeemed_200 cfg
          /\ prospects (world_of (handle cfg c w)) = prospects w) as [Hr Hp].
  { destruct c as [e req | e req]; simpl.
    - split; [apply issuance_is_no_redemption | apply requestpasswordreset_prospects].
    - apply redemption_dead_end. }
  unfold response_of, world_of in Hr, Hp.
  destruct (handle cfg c w) as [[r w'] tr]. simpl in Hr, Hp.
  destruct (IH w') as [IHp IHr].
  destruct (run_calls cfg calls w') as [rs w'']. simpl in *.
  split; [congruence | constructor; assumption].
Qed.

(** The world a successful issuance leaves. *)
Lemma issuance_success_world cfg e w p owner :
  let email := normalize (p_email p) in
  let run := exec e (requestpasswordreset cfg (post p)) w in
  prospects w !! (email, email) = Some owner ->
  response_of run = reset_sent_200 cfg ->
  isValidEmail email = true
  /\ prospects (world_of run) = prospects w
  /\ resetrequests (world_of run)
     = <[("reset", minted_code e) :=
           {| t_therapistId := u_therapistId owner; t_email := email;
              t_createdAt := clock e; t_expiresAt := clock e + 15 * 60000;
              t_used := false; t_etag := next_etag w |}]> (resetrequests w).
Proof.
  intros email run Hu. subst email run.
  destruct (isValidEmail (normalize (p_email p))) eqn:He.
  2:{ unfold requestpasswordreset, response_of. simpl. rewrite He. discriminate. }
  destruct (fails e AtProspectsGet) eqn:Hf.
  { rewrite (issuance_no_user cfg e w p He (or_introl Hf)). discriminate. }
  rewrite (issuance_run cfg e w p owner He Hf Hu), mint_run.
  unfold response_of, world_of.
  destruct (fails e AtResetUpsert) eqn:Hup; simpl; [discriminate |].
  intros _. split; [reflexivity |].
  split.
  - rewrite (proj2 (sendEmail_tables _ _ _)). unfold upsertToken.
    rewrite Hup. reflexivity.
  - rewrite minted_world_lookup by exact Hup. reflexivity.
Qed.

(** X20: a code that issuance stored passes the token check of a
    redemption made with the same address, in any letter case, strictly
    before 15 minutes have passed since the issuance: its record is marked
    used (and the call then fails at the scan for the owner, with 400
    Account not found.). A redemption made at that instant or later is
    refused with 400 Code has expired or already been used. and leaves
    every user row as it was. *)
Theorem issued_code_lifetime cfg e1 e2 e3 w p1 p2 owner :
  let email := normalize (p_email p1) in
  let w1 := world_of (exec e1 (requestpasswordreset cfg (post p1)) w) in
  prospects w !! (email, email) = Some owner ->
  response_of (exec e1 (requestpasswordreset cfg (post p1)) w) = reset_sent_200 cfg ->
  normalize (p_email p2) = email ->
  p_code p2 = Some (minted_code e1) ->
  isValidPassword (p_newPassword p2) = true ->
  clock e2 < clock e1 + 15 * 60000 ->
  fails e2 AtResetGet = false ->
  fails e2 AtResetUpdate = false ->
  clock e1 + 15 * 60000 <= clock e3 ->
  fails e3 AtResetGet = false ->
  (trace_of (exec e2 (resetpassword cfg (post p2)) w1)
   = [EvResetGet "reset" (minted_code e1) true;
      EvResetUpdate "reset" (minted_code e1) true true;
      EvProspectsQuery (u_therapistId owner) false]
   /\ response_of (exec e2 (resetpassword cfg (post p2)) w1)
      = account_not_found_400 cfg
   /\ t_used <$> resetrequests
                   (world_of (exec e2 (resetpassword cfg (post p2)) w1))
                 !! ("reset", minted_code e1) = Some true)
  /\ (response_of (exec e3 (resetpassword cfg (post p2)) w1) = refused_400 cfg
      /\ prospects (world_of (exec e3 (resetpassword cfg (post p2)) w1))
         = prospects w).
Proof.
  intros email w1 Hu Hresp Hmail Hcode Hp Hlive Hg Hm Hdead Hg3.
  destruct (issuance_success_world cfg e1 w p1 owner Hu Hresp)
    as (He & Hpro & Htok).
  fold w1 in Hpro, Htok. fold email in He. clearbody w1.
  assert (six_digits (nullish (p_code p2) EmptyString) = true) as Hc
    by (rewrite Hcode; apply minted_code_six_digits).
  rewrite <- Hmail in He.
  destruct (resetpassword_checks_pass _ _ _ He Hc Hp) as (Ce & Cc & Cp).
  set (tok := {| t_therapistId := u_therapistId owner; t_email := email;
                 t_createdAt := clock e1; t_expiresAt := clock e1 + 15 * 60000;
                 t_used := false; t_etag := next_etag w |}) in Htok.
  assert (resetrequests w1 !! ("reset", nullish (p_code p2) EmptyString)
          = Some tok) as Ht
    by (rewrite Hcode, Htok; apply lookup_insert_eq).
  assert (normalize (Some (t_email tok)) = normalize (p_email p2)) as Hsame
    by (rewrite Hmail; apply normalize_idempotent).
  assert (t_used tok = false) as Hunused by reflexivity.
  assert (t_expiresAt tok = clock e1 + 15 * 60000) as Hexp by reflexivity.
  assert (t_therapistId tok = u_therapistId owner) as Htid by reflexivity.
  assert (minted_code e1 = nullish (p_code p2) EmptyString) as ->
    by (rewrite Hcode; reflexivity).
  rewrite <- Htid. clearbody tok. clear Htok.
  split.
  - assert ((t_expiresAt tok <=? clock e2) = false) as Hl
      by (apply Z.leb_gt; lia).
    unfold resetpassword, post, response_of, world_of, trace_of.
    repeat (progress (simpl;
                      rewrite ?Ce, ?Cc, ?Cp;
                      unfold getEntity, updateToken, queryEntities;
                      rewrite ?Hg, ?Hm, ?Ht, ?Hsame, ?String.eqb_refl,
                        ?Hl, ?Hunused)).
    split; [reflexivity |]. split; [reflexivity |].
    rewrite lookup_insert_eq. reflexivity.
  - assert ((t_expiresAt tok <=? clock e3) = true) as Hl
      by (apply Z.leb_le; lia).
    unfold resetpassword, post, response_of, world_of.
    repeat (progress (simpl;
                      rewrite ?Ce, ?Cc, ?Cp;
                      unfold getEntity;
                      rewrite ?Hg3, ?Ht, ?Hsame, ?String.eqb_refl, ?Hl)).
    pose proof (deleteToken_prospects e3 w1
                  ("reset", nullish (p_code p2) EmptyString)) as Hd.
    destruct (deleteToken e3 w1 _) as [o w2]. simpl in *.
    split; [reflexivity | congruence].
Qed.

Lemma issued_code_lifetime_witness :
  let w1 :=
    world_of
      (exec Sample.env
         (requestpasswordreset Sample.cfg (Sample.issue "alice@example.com"))
         Sample.w_empty) in
  let late :=
    {| clock := 901000; random := 0; bcrypt := Sample.hash;
       fails := Sample.never_fails |} in
  In (EvResetUpdate "reset" "100000" true true)
    (trace_of
       (exec Sample.env_mid
          (resetpassword Sample.cfg
             (Sample.redeem " Alice@Example.COM" "100000" "Abcdefg1")) w1))
  /\ response_of
       (exec late
          (resetpassword Sample.cfg
             (Sample.redeem " Alice@Example.COM" "100000" "Abcdefg1")) w1)
     = refused_400 Sample.cfg.
Proof.
  intros w1 late.
  destruct (issued_code_lifetime Sample.cfg Sample.env Sample.env_mid late
              Sample.w_empty
              {| p_email := Some "alice@example.com"; p_code := None;
                 p_newPassword := None |}
              {| p_email := Some " Alice@Example.COM"; p_code := Some "100000";
                 p_newPassword := Some "Abcdefg1" |}
              Sample.alice
              eq_refl eq_refl eq_refl eq_refl eq_refl eq_refl eq_refl eq_refl)
    as [(Htr & _) (Hlate & _)].
  - vm_compute. intros [=].
  - reflexivity.
  - split; [| exact Hlate].
    eapply (eq_ind_r (fun tr => In (EvResetUpdate "reset" "100000" true true) tr));
      [| exact Htr].
    right. left. reflexivity.
Defined.

(** ** An invariant of the token table *)

Lemma wellformed_subset w w1 :
  (forall k, resetrequests w1 !! k = resetrequests w !! k
             \/ resetrequests w1 !! k = None) ->
  token_rows_wellformed w -> token_rows_wellformed w1.
Proof.
  intros Hsub Hwf k t Hk. destruct (Hsub k) as [H | H].
  - apply Hwf. rewrite <- H. exact Hk.
  - rewrite H in Hk. discriminate.
Qed.

Lemma wellformed_after_issuance cfg e w req :
  token_rows_wellformed w ->
  token_rows_wellformed (world_of (exec e (requestpasswordreset cfg req) w)).
Proof.
  intros Hwf.
  destruct (issuance_outcomes cfg e w req)
    as [[_ Hr] | [(_ & _ & Hr) | [(p & _ & _ & Hr) | [(p & _ & _ & _ & Hr)
       | (p & user & -> & _ & _ & _ & Hr)]]]];
    rewrite Hr; unfold world_of; simpl; try exact Hwf.
  rewrite mint_run. destruct (fails e AtResetUpsert) eqn:Hup; simpl;
    [exact Hwf |].
  intros k t. rewrite minted_world_lookup by exact Hup.
  destruct (decide (k = ("reset", minted_code e))) as [-> | Hne].
  - rewrite lookup_insert_eq. intros [= <-]. simpl.
    split; [reflexivity |]. split; [apply minted_code_six_digits |].
    split; [apply normalize_idempotent | reflexivity].
  - rewrite lookup_insert_ne by congruence. apply Hwf.
Qed.

Lemma wellformed_after_redemption cfg e w req :
  token_rows_wellformed w ->
  token_rows_wellformed (world_of (exec e (resetpassword cfg req) w)).
Proof.
  intros Hwf.
  destruct (redemption_no_call cfg e w req)
    as [(r & Hr & _ & _) | (p & -> & He & Hc & Hp)].
  { rewrite Hr. exact Hwf. }
  set (key := ("reset", nullish (p_code p) EmptyString)).
  assert (forall t,
            resetrequests w !! key = Some t ->
            token_rows_wellformed (snd (updateToken e w key true AnyETag)))
    as Hmark.
  { intros t Ht. rewrite (updateToken_any _ _ _ _ Ht).
    destruct (fails e AtResetUpdate); [exact Hwf |]. simpl.
    intros k t'. simpl. destruct (decide (k = key)) as [-> | Hne].
    - rewrite lookup_insert_eq. intros [= <-]. simpl. exact (Hwf _ _ Ht).
    - rewrite lookup_insert_ne by congruence. apply Hwf. }
  unfold world_of.
  destruct (redemption_run cfg e w p He Hc Hp)
    as [[_ ->] | (t & _ & Ht & [[_ ->] | [(_ & _ & ->)
       | (_ & _ & _ & [[_ ->] | [_ ->]])]])];
    simpl; try exact Hwf.
  - apply (wellformed_subset w); [| exact Hwf]. intros k.
    destruct (deleteToken_lookup e w key k) as [H | H]; auto.
  - exact (Hmark t Ht).
Qed.

(** X23: the token table keeps its shape. If every row sits in the
    partition 'reset' under a code of six digits, holds a normalized address
    and expires fifteen minutes after its creation, the same holds after any
    sequence of issuance and redemption calls, whatever they meet. *)
Theorem token_rows_stay_wellformed cfg calls w :
  token_rows_wellformed w ->
  token_rows_wellformed (snd (run_calls cfg calls w)).
Proof.
  revert w. induction calls as [| c calls IH]; intros w Hwf; [exact Hwf |].
  simpl.
  assert (token_rows_wellformed (world_of (handle cfg c w))) as Hwf'.
  { destruct c as [e req | e req]; simpl.
    - apply wellformed_after_issuance. exact Hwf.
    - apply wellformed_after_redemption. exact Hwf. }
  unfold world_of in Hwf'.
  destruct (handle cfg c w) as [[r w'] tr]. simpl in Hwf'.
  specialize (IH w' Hwf').
  destruct (run_calls cfg calls w') as [rs w'']. exact IH.
Qed.

Lemma token_rows_stay_wellformed_witness :
  token_rows_wellformed Sample.w_alice_one
  /\ token_rows_wellformed
       (snd (run_calls Sample.cfg
               [ Issuance Sample.env (Sample.issue "alice@example.com");
                 Redemption Sample.env_mid
                   (Sample.redeem "alice@example.com" "100000" "Abcdefg1");
                 Redemption Sample.env
                   (Sample.redeem "alice@example.com" "100000" "Abcdefg1") ]
               Sample.w_alice_one)).
Proof.
  assert (token_rows_wellformed Sample.w_alice_one) as Hwf.
  { intros k t Hk. unfold Sample.w_alice_one, Sample.world in Hk. simpl in Hk.
    apply lookup_insert_Some in Hk as [[<- <-] | [_ Hk]].
    - repeat split; reflexivity.
    - rewrite lookup_empty in Hk. discriminate. }
  split; [exact Hwf |].
  apply (token_rows_stay_wellformed Sample.cfg _ Sample.w_alice_one Hwf).
Defined.

